(** * HeyChatting: the chat core and its stream transforms

    A shallow embedding of [core/ChatManager.ts], [types/index.ts] and
    [streams/MessageStreams.ts], followed by the properties of the room
    registry, the event bus and the two read-side transforms. *)

From Stdlib Require Import ZArith Ascii String.
From stdpp Require Import base option list gmap sorting.

Local Open Scope Z_scope.

(** ** JavaScript strings

    A JavaScript string is a finite sequence of UTF-16 code units.  Room
    identifiers, user names and message contents are all such sequences;
    [lit] embeds the ASCII literals of the source text. *)

Abbreviation jsstring := (list N).

Definition lit (s : string) : jsstring := N_of_ascii <$> list_ascii_of_string s.
Arguments lit s%_string : simpl never.

(** [s.replace(/c/g, by)] for a one-character pattern [c] and a replacement
    text without [$]: every occurrence of the code unit is replaced. *)
Definition replace_all (c : N) (by_ : jsstring) (s : jsstring) : jsstring :=
  s ≫= (λ x, if decide (x = c) then by_ else [x]).

(** The code units stripped by [String.prototype.trim]: ECMAScript's
    WhiteSpace (TAB, VT, FF, ZWNBSP and the space separators) and
    LineTerminator (LF, CR, LS, PS). *)
Definition is_white (c : N) : bool :=
  bool_decide (c ∈ [9; 10; 11; 12; 13; 32; 160; 5760; 8232; 8233; 8239;
                    8287; 12288; 65279]%N)
  || ((8192 <=? c)%N && (c <=? 8202)%N).

Fixpoint trimStart (s : jsstring) : jsstring :=
  match s with
  | [] => []
  | c :: s' => if is_white c then trimStart s' else s
  end.

Definition trimEnd (s : jsstring) : jsstring := reverse (trimStart (reverse s)).

Definition trim (s : jsstring) : jsstring := trimEnd (trimStart s).

(** ** types/index.ts *)

Inductive MessageType := TEXT | SYSTEM | USER_JOINED | USER_LEFT.

Inductive ChatEventType :=
  USER_CONNECTED | USER_DISCONNECTED | MESSAGE_SENT | ROOM_JOINED | ROOM_LEFT.

#[global] Instance MessageType_eq_dec : EqDecision MessageType.
Proof. solve_decision. Defined.

#[global] Instance ChatEventType_eq_dec : EqDecision ChatEventType.
Proof. solve_decision. Defined.

(** Dates are kept as their time value, in milliseconds. *)
Module User.
Record t := mk { id : jsstring; username : jsstring; joinedAt : Z }.
End User.

Module Message.
Record t := mk {
  id : jsstring;
  userId : jsstring;
  username : jsstring;
  content : jsstring;
  timestamp : Z;
  type : MessageType;
}.
End Message.

#[global] Instance User_eq_dec : EqDecision User.t.
Proof. solve_decision. Defined.

#[global] Instance Message_eq_dec : EqDecision Message.t.
Proof. solve_decision. Defined.

(** ** streams/MessageStreams.ts: MessageTransform *)

Module MessageTransform.

Definition processMessage (message : Message.t) : Message.t :=
  let sanitizedContent :=
    trim (replace_all 62 (lit "&gt;")
            (replace_all 60 (lit "&lt;") (Message.content message))) in
  Message.mk (Message.id message) (Message.userId message)
    (Message.username message) sanitizedContent
    (Message.timestamp message) (Message.type message).

(** [_transform] pushes the processed message on the readable side; the
    state of the stream is the sequence pushed so far. *)
Definition _transform (pushed : list Message.t) (message : Message.t)
  : list Message.t :=
  pushed ++ [processMessage message].

End MessageTransform.

(** ** JavaScript [Map] with string keys

    A [Map] holds one entry per key and iterates in insertion order:
    [set] on a present key replaces the value where it stands, on an absent
    key it appends the entry. *)

Module JsMap.
Section defs.
Context {V : Type}.

Fixpoint get (k : jsstring) (m : list (jsstring * V)) : option V :=
  match m with
  | [] => None
  | (k', v) :: m' => if decide (k' = k) then Some v else get k m'
  end.

Fixpoint set (k : jsstring) (v : V) (m : list (jsstring * V))
  : list (jsstring * V) :=
  match m with
  | [] => [(k, v)]
  | (k', v') :: m' =>
      if decide (k' = k) then (k, v) :: m' else (k', v') :: set k v m'
  end.

Definition delete (k : jsstring) (m : list (jsstring * V))
  : list (jsstring * V) :=
  List.filter (λ kv, negb (bool_decide (kv.1 = k))) m.

Definition size (m : list (jsstring * V)) : nat := length m.

Definition values (m : list (jsstring * V)) : list V := m.*2.
End defs.
End JsMap.

Module Room.
Record t := mk {
  id : jsstring;
  name : jsstring;
  users : list (jsstring * User.t);
  messages : list Message.t;
  createdAt : Z;
}.
End Room.

(** [ChatEvent.payload] is typed [any]; the manager builds two shapes. *)
Inductive Payload :=
  | PayloadUser (roomId : jsstring) (user : User.t)
  | PayloadMessage (roomId : jsstring) (message : Message.t).

Module ChatEvent.
Record t := mk { type : ChatEventType; payload : Payload; timestamp : Z }.
End ChatEvent.

Definition payload_roomId (p : Payload) : jsstring :=
  match p with PayloadUser r _ | PayloadMessage r _ => r end.

(** [payload.message]; [None] stands for [undefined]. *)
Definition payload_message (p : Payload) : option Message.t :=
  match p with PayloadUser _ _ => None | PayloadMessage _ m => Some m end.

(** ** rxjs: subjects, observables and the operators in use *)

(** The values that reach a subscriber of one of the manager's streams. *)
Inductive Value :=
  | VEvent (e : ChatEvent.t)
  | VMessage (m : Message.t)
  | VUndefined.

Class JsValue (A : Type) := toValue : A → Value.
#[global] Instance ChatEvent_value : JsValue ChatEvent.t := VEvent.
#[global] Instance Message_value : JsValue (option Message.t) :=
  λ o, match o with Some m => VMessage m | None => VUndefined end.

(** An observable derived from the manager's event subject: what it passes
    on, if anything, for each event of the source. *)
Definition Observable (A : Type) : Type := ChatEvent.t → option A.

Definition asObservable : Observable ChatEvent.t := Some.

Definition rx_filter {A} (p : A → bool) (o : Observable A) : Observable A :=
  λ e, a ← o e; if p a then Some a else None.

Definition rx_map {A B} (f : A → B) (o : Observable A) : Observable B :=
  λ e, f <$> o e.

(** A subscription: the pipeline between the subject and the subscriber,
    and the values the subscriber has received so far. *)
Record Observer := mkObserver {
  pipeline : ChatEvent.t → option Value;
  received : list Value;
}.

Definition deliver (e : ChatEvent.t) (o : Observer) : Observer :=
  match pipeline o e with
  | Some v => mkObserver (pipeline o) (received o ++ [v])
  | None => o
  end.

(** The pipeline an observer of the derived stream [o] is attached with. *)
Definition stream_of {A} `{JsValue A} (o : Observable A)
  : ChatEvent.t → option Value :=
  λ e, toValue <$> o e.

(** [BehaviorSubject<Room>]: the current value and, for each subscriber,
    the rooms it was handed. *)
Record BehaviorSubject := mkBehaviorSubject {
  value : Room.t;
  roomObservers : list (list Room.t);
}.

Definition subject_next (room : Room.t) (b : BehaviorSubject) : BehaviorSubject :=
  mkBehaviorSubject room ((λ log, log ++ [room]) <$> roomObservers b).

(** ** core/ChatManager.ts *)

(** The fields of a [ChatManager], the trace of the events handed to
    [eventStream.next], and the two sources of fresh values the methods
    read: the system clock and the UUID generator, each with the number of
    readings made so far. *)
Record State := mkState {
  rooms : list (jsstring * Room.t);
  roomSubjects : list (jsstring * BehaviorSubject);
  eventStream : list Observer;
  emitted : list ChatEvent.t;
  clock : nat → Z;
  dates : nat;
  uuid : nat → jsstring;
  uuids : nat;
}.

(** A method either returns or throws an [Error] with a message. *)
Inductive Result (A : Type) :=
  | Ok (a : A)
  | Throw (message : jsstring).
Arguments Ok {A} a.
Arguments Throw {A} message.

Definition M (A : Type) : Type := State → Result A * State.

#[global] Instance M_ret : MRet M := λ A a s, (Ok a, s).

#[global] Instance M_bind : MBind M := λ A B f m s,
  match m s with
  | (Ok a, s') => f a s'
  | (Throw e, s') => (Throw e, s')
  end.

Definition throw {A} (message : jsstring) : M A := λ s, (Throw message, s).

Definition gets {A} (f : State → A) : M A := λ s, (Ok (f s), s).

Definition modify (f : State → State) : M unit := λ s, (Ok tt, f s).

Definition with_rooms (f : list (jsstring * Room.t) → list (jsstring * Room.t))
  (s : State) : State :=
  mkState (f (rooms s)) (roomSubjects s) (eventStream s) (emitted s)
    (clock s) (dates s) (uuid s) (uuids s).

Definition with_roomSubjects
  (f : list (jsstring * BehaviorSubject) → list (jsstring * BehaviorSubject))
  (s : State) : State :=
  mkState (rooms s) (f (roomSubjects s)) (eventStream s) (emitted s)
    (clock s) (dates s) (uuid s) (uuids s).

Definition with_eventStream (f : list Observer → list Observer) (s : State)
  : State :=
  mkState (rooms s) (roomSubjects s) (f (eventStream s)) (emitted s)
    (clock s) (dates s) (uuid s) (uuids s).

(** [new Date()] *)
Definition new_Date : M Z := λ s,
  (Ok (clock s (dates s)),
   mkState (rooms s) (roomSubjects s) (eventStream s) (emitted s)
     (clock s) (S (dates s)) (uuid s) (uuids s)).

(** [uuidv4()] *)
Definition uuidv4 : M jsstring := λ s,
  (Ok (uuid s (uuids s)),
   mkState (rooms s) (roomSubjects s) (eventStream s) (emitted s)
     (clock s) (dates s) (uuid s) (S (uuids s))).

(** [eventStream.next(event)] *)
Definition eventStream_next (event : ChatEvent.t) : M unit := λ s,
  (Ok tt,
   mkState (rooms s) (roomSubjects s) (deliver event <$> eventStream s)
     (emitted s ++ [event]) (clock s) (dates s) (uuid s) (uuids s)).

(** A room after [room.users] was changed into [users'], and after
    [room.messages.push(m)]. *)
Definition set_users (users' : list (jsstring * User.t)) (room : Room.t)
  : Room.t :=
  Room.mk (Room.id room) (Room.name room) users' (Room.messages room)
    (Room.createdAt room).

Definition push (m : Message.t) (room : Room.t) : Room.t :=
  Room.mk (Room.id room) (Room.name room) (Room.users room)
    (Room.messages room ++ [m]) (Room.createdAt room).

Module ChatManager.

Definition createRoom (id name : jsstring) : M Room.t :=
  now ← new_Date;
  let room := Room.mk id name [] [] now in
  modify (with_rooms (JsMap.set id room));;
  modify (with_roomSubjects (JsMap.set id (mkBehaviorSubject room [])));;
  mret room.

Definition getRoom (roomId : jsstring) : M (option Room.t) :=
  gets (λ s, JsMap.get roomId (rooms s)).

Definition getAllRooms : M (list Room.t) :=
  gets (λ s, JsMap.values (rooms s)).

Definition updateRoom (room : Room.t) : M unit :=
  modify (with_rooms (JsMap.set (Room.id room) room));;
  subject ← gets (λ s, JsMap.get (Room.id room) (roomSubjects s));
  match subject with
  | Some b =>
      modify (with_roomSubjects
                (JsMap.set (Room.id room) (subject_next room b)))
  | None => mret tt
  end.

Definition emitEvent (event : ChatEvent.t) : M unit :=
  eventStream_next event.

(** The room found under [roomId] is an object that the methods change
    where it lies: after [room.users.set], [room.users.delete] or
    [room.messages.push] the registry holds the changed room under the key
    it was read from.  [mutate] is that write. *)
Definition mutate (roomId : jsstring) (room : Room.t) : M unit :=
  modify (with_rooms (JsMap.set roomId room)).

Definition addUserToRoom (roomId : jsstring) (user : User.t) : M bool :=
  found ← gets (λ s, JsMap.get roomId (rooms s));
  match found with
  | None => mret false
  | Some room =>
      let room :=
        set_users (JsMap.set (User.id user) user (Room.users room)) room in
      mutate roomId room;;
      id ← uuidv4;
      now ← new_Date;
      let joinMessage :=
        Message.mk id (lit "system") (lit "System")
          (User.username user ++ lit " joined the room") now USER_JOINED in
      let room := push joinMessage room in
      mutate roomId room;;
      updateRoom room;;
      now' ← new_Date;
      emitEvent (ChatEvent.mk ROOM_JOINED (PayloadUser roomId user) now');;
      mret true
  end.

Definition removeUserFromRoom (roomId userId : jsstring) : M bool :=
  found ← gets (λ s, JsMap.get roomId (rooms s));
  match found with
  | None => mret false
  | Some room =>
      match JsMap.get userId (Room.users room) with
      | None => mret false
      | Some user =>
          let room :=
            set_users (JsMap.delete userId (Room.users room)) room in
          mutate roomId room;;
          id ← uuidv4;
          now ← new_Date;
          let leaveMessage :=
            Message.mk id (lit "system") (lit "System")
              (User.username user ++ lit " left the room") now USER_LEFT in
          let room := push leaveMessage room in
          mutate roomId room;;
          updateRoom room;;
          now' ← new_Date;
          emitEvent (ChatEvent.mk ROOM_LEFT (PayloadUser roomId user) now');;
          mret true
      end
  end.

Definition addMessage (roomId userId content : jsstring)
  : M (option Message.t) :=
  found ← gets (λ s, JsMap.get roomId (rooms s));
  match found with
  | None => mret None
  | Some room =>
      match JsMap.get userId (Room.users room) with
      | None => mret None
      | Some user =>
          id ← uuidv4;
          now ← new_Date;
          let message :=
            Message.mk id userId (User.username user) content now TEXT in
          let room := push message room in
          mutate roomId room;;
          updateRoom room;;
          now' ← new_Date;
          emitEvent
            (ChatEvent.mk MESSAGE_SENT (PayloadMessage roomId message) now');;
          mret (Some message)
      end
  end.

(** [messages.slice(start)] for an integral [start]: a negative start
    counts from the end, and either way it is clamped to the array. *)
Definition slice {A} (start : Z) (l : list A) : list A :=
  let len := Z.of_nat (length l) in
  let k := if start <? 0 then Z.max (len + start) 0 else Z.min start len in
  drop (Z.to_nat k) l.

(** [limit] is an optional number; it is taken to be integral here.  The
    test [limit ? _ : _] fails for [undefined] and for [0]. *)
Definition getRoomMessages (roomId : jsstring) (limit : option Z)
  : M (list Message.t) :=
  found ← gets (λ s, JsMap.get roomId (rooms s));
  match found with
  | None => mret []
  | Some room =>
      let messages := Room.messages room in
      match limit with
      | Some l => if decide (l = 0) then mret messages
                  else mret (slice (- l) messages)
      | None => mret messages
      end
  end.

Definition getRoomUsers (roomId : jsstring) : M (list User.t) :=
  found ← gets (λ s, JsMap.get roomId (rooms s));
  match found with
  | None => mret []
  | Some room => mret (JsMap.values (Room.users room))
  end.

(** The observable returned for a room is the view of the subject found
    under that key. *)
Definition getRoomStream (roomId : jsstring) : M BehaviorSubject :=
  subject ← gets (λ s, JsMap.get roomId (roomSubjects s));
  match subject with
  | None => throw (lit "Room " ++ roomId ++ lit " not found")
  | Some b => mret b
  end.

Definition getEventStream : M (Observable ChatEvent.t) :=
  mret asObservable.

Definition getRoomEventStream (roomId : jsstring)
  : M (Observable ChatEvent.t) :=
  mret (rx_filter
          (λ event, bool_decide
                      (payload_roomId (ChatEvent.payload event) = roomId))
          asObservable).

Definition getMessageStream (roomId : jsstring)
  : M (Observable (option Message.t)) :=
  mret (rx_map (λ event, payload_message (ChatEvent.payload event))
          (rx_filter
             (λ event,
                bool_decide (ChatEvent.type event = MESSAGE_SENT)
                && bool_decide
                     (payload_roomId (ChatEvent.payload event) = roomId))
             asObservable)).

(** [observable.subscribe(...)] on a stream derived from [eventStream]:
    the subject gains an observer, identified by its position. *)
Definition subscribe {A} `{JsValue A} (o : Observable A) : M nat := λ s,
  (Ok (length (eventStream s)),
   with_eventStream
     (λ obs, obs ++ [mkObserver (stream_of o) []]) s).

(** The constructor: empty maps, then the default room. *)
Definition empty (clock : nat → Z) (uuid : nat → jsstring) : State :=
  mkState [] [] [] [] clock 0 uuid 0.

Definition constructor : M unit :=
  createRoom (lit "general") (lit "General Chat");; mret tt.

Definition new (clock : nat → Z) (uuid : nat → jsstring) : State :=
  (constructor (empty clock uuid)).2.

End ChatManager.

(** ** Sequences of calls on a manager *)

Inductive Call :=
  | CreateRoom (id name : jsstring)
  | AddUserToRoom (roomId : jsstring) (user : User.t)
  | RemoveUserFromRoom (roomId userId : jsstring)
  | AddMessage (roomId userId content : jsstring).

Inductive Returned :=
  | RRoom (room : Room.t)
  | RBool (b : bool)
  | RMessage (m : option Message.t).

Definition call (c : Call) : M Returned :=
  match c with
  | CreateRoom id name =>
      r ← ChatManager.createRoom id name; mret (RRoom r)
  | AddUserToRoom roomId user =>
      b ← ChatManager.addUserToRoom roomId user; mret (RBool b)
  | RemoveUserFromRoom roomId userId =>
      b ← ChatManager.removeUserFromRoom roomId userId; mret (RBool b)
  | AddMessage roomId userId content =>
      m ← ChatManager.addMessage roomId userId content; mret (RMessage m)
  end.

Fixpoint call_all (cs : list Call) : M (list Returned) :=
  match cs with
  | [] => mret []
  | c :: cs' => r ← call c; rs ← call_all cs'; mret (r :: rs)
  end.

(** The message a call posted to room [R], if it is such a call and it was
    accepted. *)
Definition posted_to (R : jsstring) (cr : Call * Returned) : option Message.t :=
  match cr with
  | (AddMessage roomId _ _, RMessage (Some m)) =>
      if decide (roomId = R) then Some m else None
  | _ => None
  end.

(** ** streams/MessageStreams.ts: UserActivityTransform *)

Module UserActivityTransform.

Record Data := mkData { user : User.t; action : jsstring }.

(** [{...data, lastActivity, activeUsers}] *)
Record Activity := mkActivity {
  data : Data;
  lastActivity : option Z;
  activeUsers : nat;
}.

(** The private map and the objects pushed on the readable side. *)
Record t := mk {
  userActivity : gmap jsstring Z;
  pushed : list Activity;
}.

Definition new : t := mk ∅ [].

(** [now] is the reading of the clock made by [new Date()]. *)
Definition _transform (now : Z) (st : t) (d : Data) : t :=
  let userActivity' := <[User.id (user d) := now]> (userActivity st) in
  let activityData :=
    mkActivity d (userActivity' !! User.id (user d)) (size userActivity') in
  mk userActivity' (pushed st ++ [activityData]).

(** One step of the loop over [userActivity.entries()]. *)
Definition prune_entry (fiveMinutesAgo : Z) (m : gmap jsstring Z)
  (entry : jsstring * Z) : gmap jsstring Z :=
  if decide (entry.2 < fiveMinutesAgo) then delete entry.1 m else m.

(** [now] is the reading [Date.now()]. *)
Definition getActiveUsers (now : Z) (st : t) : nat * t :=
  let fiveMinutesAgo := now - 5 * 60 * 1000 in
  let userActivity' :=
    foldl (prune_entry fiveMinutesAgo) (userActivity st)
      (map_to_list (userActivity st)) in
  (size userActivity', mk userActivity' (pushed st)).

(** The tracker after the stream has processed a sequence of events, that
    is after one call of [_transform] for each of them in turn, each at its
    own clock reading.  These are the events the stream hands to
    [_transform], not all those written to it: a stream whose readable
    side is consumed processes every event written, one that nobody reads
    stops processing once sixteen pushed objects wait to be read. *)
Definition write_all (st : t) (events : list (Z * Data)) : t :=
  foldl (λ st e, _transform e.1 st e.2) st events.

End UserActivityTransform.

(** * Specification-level notions *)

(** The last [n] elements of a sequence, in their order. *)
Definition last_n {A} (n : nat) (l : list A) : list A :=
  drop (length l - n) l.

(** A room is registered under [roomId]. *)
Definition room_at (s : State) (roomId : jsstring) : option Room.t :=
  JsMap.get roomId (rooms s).

(** The registry and its subjects answer for the same identifiers, and each
    room lies under its own identifier. *)
Definition consistent (s : State) : Prop :=
  (∀ k, JsMap.get k (rooms s) = None ↔ JsMap.get k (roomSubjects s) = None)
  ∧ (∀ k r, JsMap.get k (rooms s) = Some r → Room.id r = k).

(** The history and the members of the room under [roomId]; both are empty
    when there is no such room. *)
Definition roomHistory (s : State) (roomId : jsstring) : list Message.t :=
  match room_at s roomId with Some room => Room.messages room | None => [] end.

Definition roomMembers (s : State) (roomId : jsstring) : list User.t :=
  match room_at s roomId with
  | Some room => JsMap.values (Room.users room)
  | None => []
  end.

(** The member record of [userId] in the room under [roomId]: [None] when
    the room is absent or the user is not one of its members. *)
Definition member_in (s : State) (roomId userId : jsstring) : option User.t :=
  room ← room_at s roomId; JsMap.get userId (Room.users room).

(** What a mutation of the room read under [roomId] leaves behind: the
    changed room written back and registered again under its own
    identifier, the room subjects answering for the same keys, and one
    event [e] handed to every observer of the event subject. *)
Definition committed (roomId : jsstring) (room' : Room.t) (e : ChatEvent.t)
  (s s' : State) : Prop :=
  rooms s' = JsMap.set (Room.id room') room' (JsMap.set roomId room' (rooms s))
  ∧ (∀ k, JsMap.get k (roomSubjects s') = None
          ↔ JsMap.get k (roomSubjects s) = None)
  ∧ eventStream s' = deliver e <$> eventStream s
  ∧ emitted s' = emitted s ++ [e]
  ∧ clock s' = clock s ∧ uuid s' = uuid s.

(** The messages built by the three mutating methods. *)
Definition joinMessage (s : State) (user : User.t) : Message.t :=
  Message.mk (uuid s (uuids s)) (lit "system") (lit "System")
    (User.username user ++ lit " joined the room") (clock s (dates s))
    USER_JOINED.

Definition leaveMessage (s : State) (user : User.t) : Message.t :=
  Message.mk (uuid s (uuids s)) (lit "system") (lit "System")
    (User.username user ++ lit " left the room") (clock s (dates s))
    USER_LEFT.

Definition textMessage (s : State) (userId : jsstring) (user : User.t)
  (content : jsstring) : Message.t :=
  Message.mk (uuid s (uuids s)) userId (User.username user) content
    (clock s (dates s)) TEXT.

(** The event published by a mutating method, stamped with the second
    reading of the clock. *)
Definition eventOf (s : State) (type : ChatEventType) (p : Payload)
  : ChatEvent.t :=
  ChatEvent.mk type p (clock s (S (dates s))).

(** ** Sample managers

    A manager at start-up, with a clock that advances by one millisecond at
    each reading and a generator whose identifiers are runs of the letter
    [u], each one longer than the last, and the same manager once Alice has
    joined the default room. *)
Definition sample_clock (n : nat) : Z := 1000 + Z.of_nat n.

Definition sample_uuid (n : nat) : jsstring := replicate (S n) 117%N.

Definition general : jsstring := lit "general".

Definition alice : User.t := User.mk (lit "u-1") (lit "alice") 999.

Definition fresh_manager : State := ChatManager.new sample_clock sample_uuid.

Definition joined_manager : State :=
  (ChatManager.addUserToRoom general alice fresh_manager).2.

(** The same manager once Alice has posted a message. *)
Definition chatting_manager : State :=
  (ChatManager.addMessage general (lit "u-1") (lit "hi") joined_manager).2.

(** The sanitizer in the words of its description: both angle brackets are
    replaced in one pass by their entity escapes. *)
Definition html_escape_spec (s : jsstring) : jsstring :=
  s ≫= (λ c, if decide (c = 60%N) then lit "&lt;"
             else if decide (c = 62%N) then lit "&gt;" else [c]).

Definition starts_clean (s : jsstring) : Prop :=
  ∀ c, head s = Some c → is_white c = false.

Definition ends_clean (s : jsstring) : Prop :=
  ∀ c, last s = Some c → is_white c = false.

Definition all_white (s : jsstring) : Prop := Forall (λ c, is_white c = true) s.

Definition no_angle (s : jsstring) : Prop := Forall (λ c, c ≠ 60%N ∧ c ≠ 62%N) s.

Definition set_content (c : jsstring) (m : Message.t) : Message.t :=
  Message.mk (Message.id m) (Message.userId m) (Message.username m) c
    (Message.timestamp m) (Message.type m).

(** ** streams/MessageStreams.ts: MessageHistoryStream *)

Module MessageHistoryStream.

(** The array handed to the constructor, the read position, and what was
    pushed on the readable side so far; a pushed [None] is the [null] that
    ends the stream. *)
Record t := mk {
  messages : list Message.t;
  currentIndex : nat;
  pushed : list (option Message.t);
}.

Definition new (messages : list Message.t) : t := mk messages 0 [].



End MessageHistoryStream.

(** ** socket/SocketHandler.ts

    One connection seen from the handler: the [socket.data] record, the
    socket.io rooms the handler made the socket join, and the trace of what
    the handler emitted, to the socket itself ([socket.emit]), to the other
    sockets of a room ([socket.to(roomId).emit]) or to a whole room
    ([io.to(roomId).emit]).  Writes to the console are left out. *)

Module SocketHandler.

(** Every field of [socket.data] is [undefined] until a handler sets it. *)
Record SocketData := mkData {
  userId : option jsstring;
  username : option jsstring;
  roomId : option jsstring;
}.

(** [ServerToClientEvents]; the payload of [userLeft] is the object
    [{ id, username, joinedAt }] the handlers build from [socket.data]. *)
Inductive ServerEvent :=
  | message (m : Message.t)
  | userJoined (user : User.t)
  | userLeft (id : jsstring) (username : option jsstring) (joinedAt : Z)
  | roomUsers (users : list User.t)
  | error (text : jsstring).

Inductive Emission :=
  | ToSocket (ev : ServerEvent)
  | ToOthers (roomId : jsstring) (ev : ServerEvent)
  | ToRoom (roomId : jsstring) (ev : ServerEvent).

Record Socket := mkSocket {
  data : SocketData;
  joined : list jsstring;
  sent : list Emission;
}.

Definition connected : Socket := mkSocket (mkData None None None) [] [].

Definition emit (e : Emission) (sock : Socket) : Socket :=
  mkSocket (data sock) (joined sock) (sent sock ++ [e]).

(** [socket.join(roomId)] and [socket.leave(roomId)] on the set of rooms. *)
Definition join (roomId : jsstring) (sock : Socket) : Socket :=
  mkSocket (data sock)
    (if decide (roomId ∈ joined sock) then joined sock
     else joined sock ++ [roomId])
    (sent sock).

Definition leave (roomId : jsstring) (sock : Socket) : Socket :=
  mkSocket (data sock) (filter (λ r, r ≠ roomId) (joined sock)) (sent sock).

Definition set_data (d : SocketData) (sock : Socket) : Socket :=
  mkSocket d (joined sock) (sent sock).

(** The test [if (x)] on an optional string: [undefined] and the empty
    string fail it. *)
Definition truthy (o : option jsstring) : option jsstring :=
  match o with
  | Some (c :: s) => Some (c :: s)
  | _ => None
  end.

(** Running a call of the manager inside [try]: what it returned or
    threw is handed to the handler, which goes on. *)
Definition attempt {A} (m : M A) : M (Result A) := λ s,
  match m s with (r, s') => (Ok r, s') end.

(** The [catch] branch of the three handlers that report to the socket. *)
Definition internal_error (sock : Socket) : Socket :=
  emit (ToSocket (error (lit "Internal server error"))) sock.

Definition handleJoinRoom (roomId username : jsstring) (sock : Socket)
  : M Socket :=
  id ← uuidv4;
  now ← new_Date;
  let user := User.mk id (trim username) now in
  let sock :=
    set_data (mkData (Some (User.id user)) (Some (User.username user))
                (Some roomId)) sock in
  let sock := join roomId sock in
  success ← attempt (ChatManager.addUserToRoom roomId user);
  match success with
  | Throw _ => mret (internal_error sock)
  | Ok true =>
      roomUsers_ ← attempt (ChatManager.getRoomUsers roomId);
      match roomUsers_ with
      | Throw _ => mret (internal_error sock)
      | Ok users =>
          let sock := emit (ToSocket (roomUsers users)) sock in
          recentMessages ← attempt (ChatManager.getRoomMessages roomId (Some 50));
          match recentMessages with
          | Throw _ => mret (internal_error sock)
          | Ok recent =>
              let sock :=
                foldl (λ sock m, emit (ToSocket (message m)) sock) sock recent in
              mret (emit (ToOthers roomId (userJoined user)) sock)
          end
      end
  | Ok false => mret (emit (ToSocket (error (lit "Failed to join room"))) sock)
  end.

Definition handleLeaveRoom (roomId : jsstring) (sock : Socket) : M Socket :=
  match truthy (userId (data sock)) with
  | None => mret sock
  | Some uid =>
      let sock := leave roomId sock in
      removed ← attempt (ChatManager.removeUserFromRoom roomId uid);
      match removed with
      | Throw _ => mret (internal_error sock)
      | Ok _ =>
          now ← new_Date;
          let sock :=
            emit (ToOthers roomId (userLeft uid (username (data sock)) now))
              sock in
          mret (set_data (mkData (userId (data sock)) (username (data sock))
                            None) sock)
      end
  end.

Definition handleSendMessage (roomId content : jsstring) (sock : Socket)
  : M Socket :=
  match truthy (userId (data sock)) with
  | None => mret (emit (ToSocket (error (lit "User not authenticated"))) sock)
  | Some uid =>
      if decide (trim content = []) then
        mret (emit (ToSocket (error (lit "Message cannot be empty"))) sock)
      else
        posted ← attempt (ChatManager.addMessage roomId uid (trim content));
        match posted with
        | Throw _ => mret (internal_error sock)
        | Ok (Some m) => mret (emit (ToRoom roomId (message m)) sock)
        | Ok None =>
            mret (emit (ToSocket (error (lit "Failed to send message"))) sock)
        end
  end.

(** The [catch] branch of [handleDisconnect] only writes to the console. *)
Definition handleDisconnect (sock : Socket) : M Socket :=
  match truthy (userId (data sock)), truthy (roomId (data sock)) with
  | Some uid, Some room =>
      removed ← attempt (ChatManager.removeUserFromRoom room uid);
      match removed with
      | Throw _ => mret sock
      | Ok _ =>
          now ← new_Date;
          mret (emit (ToOthers room (userLeft uid (username (data sock)) now))
                  sock)
      end
  | _, _ => mret sock
  end.

End SocketHandler.

(** ** StreamChatServer.ts: the route that creates rooms

    [POST /api/rooms], with the fields [id] and [name] of the request body
    given as strings or missing. *)

Module StreamChatServer.

Inductive Body :=
  | ErrorBody (error : jsstring)
  | RoomBody (id name : jsstring) (userCount : nat) (createdAt : Z).

Record Response := mkResponse { status : nat; body : Body }.

Definition postRooms (id name : option jsstring) : M Response :=
  match SocketHandler.truthy id, SocketHandler.truthy name with
  | Some id, Some name =>
      existing ← ChatManager.getRoom id;
      match existing with
      | Some _ =>
          mret (mkResponse 409 (ErrorBody (lit "Room already exists")))
      | None =>
          room ← ChatManager.createRoom id name;
          mret (mkResponse 201
                  (RoomBody (Room.id room) (Room.name room) 0
                     (Room.createdAt room)))
      end
  | _, _ =>
      mret (mkResponse 400 (ErrorBody (lit "Room ID and name are required")))
  end.

End StreamChatServer.

(** The manager after the readings [uuidv4()] and [new Date()] with which
    [handleJoinRoom] builds the user. *)
Definition greeted (s : State) : State :=
  mkState (rooms s) (roomSubjects s) (eventStream s) (emitted s)
    (clock s) (S (dates s)) (uuid s) (S (uuids s)).

Definition newcomer (s : State) (username : jsstring) : User.t :=
  User.mk (uuid s (uuids s)) (trim username) (clock s (dates s)).

(** ** Notions about calls *)

(** The room a call is aimed at. *)
Definition target (c : Call) : jsstring :=
  match c with
  | CreateRoom id _ => id
  | AddUserToRoom roomId _ | RemoveUserFromRoom roomId _
  | AddMessage roomId _ _ => roomId
  end.

(** The call creates a room under [R]. *)
Definition recreates (R : jsstring) (c : Call) : Prop :=
  match c with CreateRoom id _ => id = R | _ => False end.

(** A join, a leave or a post that was accepted. *)
Definition accepted (cr : Call * Returned) : bool :=
  match cr with
  | (CreateRoom _ _, _) => false
  | (_, RBool true) | (_, RMessage (Some _)) => true
  | _ => false
  end.

(** Each registered room has a subject, and the subject's current value is
    the room. *)
Definition synced (s : State) : Prop :=
  ∀ k r, room_at s k = Some r →
    ∃ b, JsMap.get k (roomSubjects s) = Some b ∧ value b = r.

(** The room subjects after [updateRoom room']. *)
Definition subjects_after (room' : Room.t) (s : State)
  : list (jsstring * BehaviorSubject) :=
  match JsMap.get (Room.id room') (roomSubjects s) with
  | Some b => JsMap.set (Room.id room') (subject_next room' b) (roomSubjects s)
  | None => roomSubjects s
  end.

(** The timestamps of every history are readings of the clock already
    made, taken at strictly increasing positions. *)
Definition stamped (s : State) : Prop :=
  ∀ k r, room_at s k = Some r →
    ∃ js : list nat,
      Message.timestamp <$> Room.messages r = clock s <$> js
      ∧ StronglySorted lt js
      ∧ Forall (λ j, (j < dates s)%nat) js.

(** The clock never runs backwards. *)
Definition monotone (clock : nat → Z) : Prop :=
  ∀ i j, (i ≤ j)%nat → clock i ≤ clock j.

(** Unfolding a method down to the state it returns. *)
Ltac run :=
  unfold ChatManager.addMessage, ChatManager.addUserToRoom,
    ChatManager.removeUserFromRoom, ChatManager.createRoom,
    ChatManager.getRoomMessages, ChatManager.getRoomUsers,
    ChatManager.getRoom, ChatManager.getRoomStream,
    ChatManager.updateRoom, ChatManager.mutate, ChatManager.emitEvent,
    eventStream_next, new_Date, uuidv4, gets, modify, throw, room_at;
  unfold mbind, mret, M_bind, M_ret; cbn.

(** * Properties of the string primitives *)

Section strings.
Implicit Types s t : jsstring.

Lemma replace_all_app c b s t :
  replace_all c b (s ++ t) = replace_all c b s ++ replace_all c b t.
Proof. unfold replace_all. apply bind_app. Qed.

Lemma replace_all_cons c b x s :
  replace_all c b (x :: s) = (if decide (x = c) then b else [x]) ++ replace_all c b s.
Proof. reflexivity. Qed.

Lemma replace_all_absent c b s :
  Forall (λ x, x ≠ c) s → replace_all c b s = s.
Proof.
  induction 1 as [|x s Hx _ IH]; [done|].
  rewrite replace_all_cons, IH. by case_decide.
Qed.

Lemma escape_two_passes s :
  replace_all 62 (lit "&gt;") (replace_all 60 (lit "&lt;") s) = html_escape_spec s.
Proof.
  induction s as [|x s IH]; [done|].
  rewrite replace_all_cons, replace_all_app, IH.
  change (html_escape_spec (x :: s)) with
    ((if decide (x = 60%N) then lit "&lt;"
      else if decide (x = 62%N) then lit "&gt;" else [x]) ++ html_escape_spec s).
  f_equal. case_decide; [done|].
  rewrite replace_all_cons. simpl. by rewrite app_nil_r.
Qed.

Lemma html_escape_no_angle s : no_angle (html_escape_spec s).
Proof.
  induction s as [|x s IH]; [constructor|].
  change (html_escape_spec (x :: s)) with
    ((if decide (x = 60%N) then lit "&lt;"
      else if decide (x = 62%N) then lit "&gt;" else [x]) ++ html_escape_spec s).
  apply Forall_app. split; [|done].
  repeat case_decide; repeat constructor; done.
Qed.

Lemma trimStart_split s :
  ∃ l, s = l ++ trimStart s ∧ all_white l ∧ starts_clean (trimStart s).
Proof.
  induction s as [|c s (l & Hs & Hl & Hc)].
  - exists []. repeat split; [constructor | by intros c].
  - simpl. destruct (is_white c) eqn:Hw.
    + exists (c :: l). repeat split; [by rewrite Hs at 1 | by constructor | done].
    + exists []. repeat split; [constructor|].
      intros c' [= <-]. done.
Qed.

Lemma trimStart_clean s : starts_clean s → trimStart s = s.
Proof.
  destruct s as [|c s]; [done|]. intros H. simpl.
  by rewrite (H c eq_refl).
Qed.

Lemma ends_clean_reverse s : ends_clean s ↔ starts_clean (reverse s).
Proof.
  unfold ends_clean, starts_clean. by setoid_rewrite head_reverse.
Qed.

Lemma trimEnd_split s :
  ∃ r, s = trimEnd s ++ r ∧ all_white r ∧ ends_clean (trimEnd s).
Proof.
  destruct (trimStart_split (reverse s)) as (l & Hs & Hl & Hc).
  exists (reverse l). unfold trimEnd. repeat split.
  - rewrite <- reverse_app, <- Hs. by rewrite reverse_involutive.
  - by apply Forall_reverse.
  - apply ends_clean_reverse. by rewrite reverse_involutive.
Qed.

Lemma trimEnd_clean s : ends_clean s → trimEnd s = s.
Proof.
  intros H. unfold trimEnd.
  rewrite trimStart_clean by by apply ends_clean_reverse.
  apply reverse_involutive.
Qed.

Lemma trim_split s :
  ∃ l r, s = l ++ trim s ++ r ∧ all_white l ∧ all_white r
         ∧ starts_clean (trim s) ∧ ends_clean (trim s).
Proof.
  destruct (trimStart_split s) as (l & Hs & Hl & Hc).
  destruct (trimEnd_split (trimStart s)) as (r & Ht & Hr & He).
  exists l, r. unfold trim. repeat split; try done.
  - by rewrite <- Ht.
  - intros c Hhd. apply Hc. rewrite Ht.
    destruct (trimEnd (trimStart s)); [done|]. exact Hhd.
Qed.

Lemma trim_clean s : starts_clean s → ends_clean s → trim s = s.
Proof.
  intros H1 H2. unfold trim. rewrite (trimStart_clean s H1).
  by apply trimEnd_clean.
Qed.

Lemma trim_idempotent s : trim (trim s) = trim s.
Proof.
  destruct (trim_split s) as (l & r & _ & _ & _ & H1 & H2).
  by apply trim_clean.
Qed.

Lemma trim_no_angle s : no_angle s → no_angle (trim s).
Proof.
  destruct (trim_split s) as (l & r & Hs & _). intros H.
  rewrite Hs in H. apply Forall_app in H as [_ H].
  by apply Forall_app in H as [H _].
Qed.

End strings.

(** * The content sanitizer *)

(** C7: the sanitizer returns a copy of the message whose content is the
    input's content with every [<] turned into [&lt;] and every [>] into
    [&gt;], stripped of the white space at both ends, every other field
    being kept; the three sample contents map as the description says. *)
Theorem processMessage_sanitizes (m : Message.t) :
  let m' := MessageTransform.processMessage m in
  (∃ l r, html_escape_spec (Message.content m) = l ++ Message.content m' ++ r
          ∧ all_white l ∧ all_white r
          ∧ starts_clean (Message.content m') ∧ ends_clean (Message.content m'))
  ∧ m' = set_content (Message.content m') m
  ∧ MessageTransform.processMessage (set_content (lit "<script>alert(1)</script>") m)
    = set_content (lit "&lt;script&gt;alert(1)&lt;/script&gt;") m
  ∧ MessageTransform.processMessage (set_content (lit "  hi  ") m)
    = set_content (lit "hi") m
  ∧ MessageTransform.processMessage (set_content (lit "   ") m)
    = set_content (lit "") m.
Proof.
  cbv zeta. split; [|by repeat split].
  unfold MessageTransform.processMessage. cbn [Message.content].
  rewrite escape_two_passes. apply trim_split.
Qed.

(** C8: sanitizing a sanitized message changes nothing. *)
Theorem processMessage_idempotent (m : Message.t) :
  MessageTransform.processMessage (MessageTransform.processMessage m)
  = MessageTransform.processMessage m.
Proof.
  unfold MessageTransform.processMessage. cbn [Message.content Message.id
    Message.userId Message.username Message.timestamp Message.type].
  f_equal. rewrite !escape_two_passes.
  pose proof (trim_no_angle _ (html_escape_no_angle (Message.content m))) as Hn.
  rewrite <- (escape_two_passes (trim _)).
  rewrite !replace_all_absent.
  - apply trim_idempotent.
  - eapply Forall_impl; [exact Hn|]. by intros x [? _].
  - rewrite replace_all_absent.
    + eapply Forall_impl; [exact Hn|]. by intros x [_ ?].
    + eapply Forall_impl; [exact Hn|]. by intros x [? _].
Qed.

(** * Properties of [Map] *)

Section jsmap.
Context {V : Type}.
Implicit Types (m : list (jsstring * V)) (k : jsstring) (v : V).

Lemma get_set_eq m k v : JsMap.get k (JsMap.set k v m) = Some v.
Proof.
  induction m as [|[k' v'] m IH]; simpl.
  - by rewrite decide_True.
  - destruct (decide (k' = k)) as [->|Hne]; simpl.
    + by rewrite decide_True.
    + by rewrite decide_False.
Qed.

Lemma get_set_ne m k k' v :
  k ≠ k' → JsMap.get k' (JsMap.set k v m) = JsMap.get k' m.
Proof.
  intros Hne. induction m as [|[k0 v0] m IH]; simpl.
  - by rewrite decide_False.
  - destruct (decide (k0 = k)) as [->|Hk0]; simpl.
    + by rewrite !decide_False.
    + by rewrite IH.
Qed.

Lemma size_set_present m k v :
  is_Some (JsMap.get k m) → JsMap.size (JsMap.set k v m) = JsMap.size m.
Proof.
  unfold JsMap.size. induction m as [|[k0 v0] m IH]; simpl.
  - by intros [? ?].
  - destruct (decide (k0 = k)); simpl; [done|]. intros H. by rewrite IH.
Qed.

Lemma size_set_absent m k v :
  JsMap.get k m = None → JsMap.size (JsMap.set k v m) = S (JsMap.size m).
Proof.
  unfold JsMap.size. induction m as [|[k0 v0] m IH]; simpl; [done|].
  destruct (decide (k0 = k)); simpl; [done|]. intros H. by rewrite IH.
Qed.

Lemma values_set_elem m k v : v ∈ JsMap.values (JsMap.set k v m).
Proof.
  unfold JsMap.values. induction m as [|[k0 v0] m IH]; simpl.
  - apply list_elem_of_here.
  - destruct (decide (k0 = k)); simpl.
    + apply list_elem_of_here.
    + by apply list_elem_of_further.
Qed.

Lemma get_delete_eq m k : JsMap.get k (JsMap.delete k m) = None.
Proof.
  unfold JsMap.delete. induction m as [|[k0 v0] m IH]; simpl; [done|].
  case_bool_decide; simpl; [done|]. by rewrite decide_False.
Qed.

Lemma get_delete_ne m k k' :
  k ≠ k' → JsMap.get k' (JsMap.delete k m) = JsMap.get k' m.
Proof.
  intros Hne. unfold JsMap.delete.
  induction m as [|[k0 v0] m IH]; simpl; [done|].
  case_bool_decide as Hk; simpl.
  - subst k0. by rewrite decide_False.
  - by rewrite IH.
Qed.

Lemma set_set m k v1 v2 :
  JsMap.set k v2 (JsMap.set k v1 m) = JsMap.set k v2 m.
Proof.
  induction m as [|[k' v'] m IH]; simpl.
  - by rewrite decide_True.
  - destruct (decide (k' = k)) as [->|Hne]; simpl.
    + by rewrite decide_True.
    + by rewrite decide_False, IH.
Qed.

(** After [mutate] and [updateRoom] the entry read back under the key of
    the call is the updated one, whatever key the second write used. *)
Lemma get_set_set m k k' v :
  JsMap.get k (JsMap.set k' v (JsMap.set k v m)) = Some v.
Proof.
  destruct (decide (k' = k)) as [->|Hne].
  - apply get_set_eq.
  - rewrite get_set_ne by done. apply get_set_eq.
Qed.

Lemma get_set_set_ne m k k' k0 v :
  k ≠ k0 → k' ≠ k0 →
  JsMap.get k0 (JsMap.set k' v (JsMap.set k v m)) = JsMap.get k0 m.
Proof. intros. by rewrite !get_set_ne. Qed.

End jsmap.

(** * The room registry *)

Lemma subjects_keys_set (subjects : list (jsstring * BehaviorSubject)) k b b' :
  JsMap.get k subjects = Some b →
  ∀ k', JsMap.get k' (JsMap.set k b' subjects) = None
        ↔ JsMap.get k' subjects = None.
Proof.
  intros Hk k'. destruct (decide (k = k')) as [<-|Hne].
  - rewrite get_set_eq, Hk. done.
  - by rewrite get_set_ne.
Qed.

Lemma addUserToRoom_run s roomId user room :
  room_at s roomId = Some room →
  ∃ s', ChatManager.addUserToRoom roomId user s = (Ok true, s')
        ∧ committed roomId
            (push (joinMessage s user)
               (set_users (JsMap.set (User.id user) user (Room.users room))
                  room))
            (eventOf s ROOM_JOINED (PayloadUser roomId user)) s s'.
Proof.
  intros Hr. run. unfold room_at in Hr. rewrite Hr. cbn.
  destruct (JsMap.get (Room.id room) (roomSubjects s)) eqn:Hs; cbn;
    eexists; (split; [reflexivity|]); unfold committed; cbn;
    rewrite ?set_set; split_and!; try done.
  by eapply subjects_keys_set.
Qed.

Lemma removeUserFromRoom_run s roomId userId room user :
  room_at s roomId = Some room →
  JsMap.get userId (Room.users room) = Some user →
  ∃ s', ChatManager.removeUserFromRoom roomId userId s = (Ok true, s')
        ∧ committed roomId
            (push (leaveMessage s user)
               (set_users (JsMap.delete userId (Room.users room)) room))
            (eventOf s ROOM_LEFT (PayloadUser roomId user)) s s'.
Proof.
  intros Hr Hu. run. unfold room_at in Hr. rewrite Hr. cbn. rewrite Hu. cbn.
  destruct (JsMap.get (Room.id room) (roomSubjects s)) eqn:Hs; cbn;
    eexists; (split; [reflexivity|]); unfold committed; cbn;
    rewrite ?set_set; split_and!; try done.
  by eapply subjects_keys_set.
Qed.

Lemma addMessage_run s roomId userId content room user :
  room_at s roomId = Some room →
  JsMap.get userId (Room.users room) = Some user →
  ∃ s', ChatManager.addMessage roomId userId content s
        = (Ok (Some (textMessage s userId user content)), s')
        ∧ committed roomId
            (push (textMessage s userId user content) room)
            (eventOf s MESSAGE_SENT
               (PayloadMessage roomId (textMessage s userId user content)))
            s s'.
Proof.
  intros Hr Hu. run. unfold room_at in Hr. rewrite Hr. cbn. rewrite Hu. cbn.
  destruct (JsMap.get (Room.id room) (roomSubjects s)) eqn:Hs; cbn;
    eexists; (split; [reflexivity|]); unfold committed; cbn;
    rewrite ?set_set; split_and!; try done.
  by eapply subjects_keys_set.
Qed.

Lemma committed_room_at roomId room' e s s' :
  committed roomId room' e s s' → room_at s' roomId = Some room'.
Proof. unfold room_at. intros (-> & _). apply get_set_set. Qed.

Lemma committed_history roomId room' e s s' :
  committed roomId room' e s s' → roomHistory s' roomId = Room.messages room'.
Proof.
  intros H. unfold roomHistory. by rewrite (committed_room_at _ _ _ _ _ H).
Qed.

Lemma getRoomMessages_full s roomId :
  ChatManager.getRoomMessages roomId None s = (Ok (roomHistory s roomId), s).
Proof. unfold roomHistory. run. by destruct (JsMap.get roomId (rooms s)). Qed.

Lemma getRoomUsers_run s roomId :
  ChatManager.getRoomUsers roomId s = (Ok (roomMembers s roomId), s).
Proof. unfold roomMembers. run. by destruct (JsMap.get roomId (rooms s)). Qed.

Lemma member_in_None s roomId userId :
  member_in s roomId userId = None
  ↔ room_at s roomId = None
    ∨ ∃ room, room_at s roomId = Some room
              ∧ JsMap.get userId (Room.users room) = None.
Proof.
  unfold member_in. destruct (room_at s roomId) as [room|]; simpl.
  - split; [intros; right; eauto | intros [? | (? & [= <-] & ?)]; done].
  - split; [by left | done].
Qed.

(** C2: [addMessage] never throws.  When the room is absent or [userId] is
    not one of its members it returns [null] and leaves the manager, hence
    the history, as it was; otherwise it returns a [TEXT] message carrying
    the content exactly as given, the room's history is the former one with
    that message at its end, and one [MESSAGE_SENT] event with the room
    identifier and the message is published. *)
Theorem addMessage_spec (s : State) (roomId userId content : jsstring) :
  match member_in s roomId userId with
  | None =>
      ChatManager.addMessage roomId userId content s = (Ok None, s)
  | Some user =>
      ∃ message s',
        ChatManager.addMessage roomId userId content s = (Ok (Some message), s')
        ∧ Message.type message = TEXT
        ∧ Message.content message = content
        ∧ Message.userId message = userId
        ∧ Message.username message = User.username user
        ∧ roomHistory s' roomId = roomHistory s roomId ++ [message]
        ∧ ChatManager.getRoomMessages roomId None s'
          = (Ok (roomHistory s roomId ++ [message]), s')
        ∧ ∃ event,
            emitted s' = emitted s ++ [event]
            ∧ eventStream s' = deliver event <$> eventStream s
            ∧ ChatEvent.type event = MESSAGE_SENT
            ∧ ChatEvent.payload event = PayloadMessage roomId message
  end.
Proof.
  unfold member_in, roomHistory at 2 3.
  destruct (room_at s roomId) as [room|] eqn:Hr; simpl.
  - destruct (JsMap.get userId (Room.users room)) as [user|] eqn:Hu.
    + destruct (addMessage_run s roomId userId content room user Hr Hu)
        as (s' & Hrun & Hc).
      exists (textMessage s userId user content), s'.
      pose proof (committed_history _ _ _ _ _ Hc) as Hh.
      repeat split; try done.
      * by rewrite getRoomMessages_full, Hh.
      * destruct Hc as (_ & _ & Hobs & Hem & _). eauto 10.
    + run. unfold room_at in Hr. rewrite Hr. cbn. by rewrite Hu.
  - run. unfold room_at in Hr. by rewrite Hr.
Qed.

(** C3: [addUserToRoom] returns [false], touching nothing, when the room is
    absent.  For a room that exists it returns [true]; the members then
    reported for the room contain the user, the history reported ends with
    a [USER_JOINED] message whose content is the user's name followed by
    " joined the room", and one [ROOM_JOINED] event carrying the room
    identifier and the user is published. *)
Theorem addUserToRoom_spec (s : State) (roomId : jsstring) (user : User.t) :
  match room_at s roomId with
  | None => ChatManager.addUserToRoom roomId user s = (Ok false, s)
  | Some _ =>
      ∃ s' members history message event,
        ChatManager.addUserToRoom roomId user s = (Ok true, s')
        ∧ ChatManager.getRoomUsers roomId s' = (Ok members, s')
        ∧ user ∈ members
        ∧ ChatManager.getRoomMessages roomId None s' = (Ok history, s')
        ∧ last history = Some message
        ∧ Message.type message = USER_JOINED
        ∧ Message.content message = User.username user ++ lit " joined the room"
        ∧ emitted s' = emitted s ++ [event]
        ∧ eventStream s' = deliver event <$> eventStream s
        ∧ ChatEvent.type event = ROOM_JOINED
        ∧ ChatEvent.payload event = PayloadUser roomId user
  end.
Proof.
  destruct (room_at s roomId) as [room|] eqn:Hr.
  - destruct (addUserToRoom_run s roomId user room Hr) as (s' & Hrun & Hc).
    pose proof (committed_room_at _ _ _ _ _ Hc) as Hr'.
    exists s', (roomMembers s' roomId), (roomHistory s' roomId),
      (joinMessage s user), (eventOf s ROOM_JOINED (PayloadUser roomId user)).
    split_and!; try done.
    + apply getRoomUsers_run.
    + unfold roomMembers. rewrite Hr'. apply values_set_elem.
    + apply getRoomMessages_full.
    + unfold roomHistory. rewrite Hr'. apply last_snoc.
    + by destruct Hc as (_ & _ & _ & ? & _).
    + by destruct Hc as (_ & _ & ? & _).
  - run. unfold room_at in Hr. by rewrite Hr.
Qed.

(** C10: when the user is already a member of the room, [addUserToRoom]
    returns [true] once more; the room has as many members as before, the
    record kept under the user's identifier being the one just given, and
    yet the history gains one more [USER_JOINED] message and one more
    [ROOM_JOINED] event is published. *)
Theorem addUserToRoom_again (s : State) (roomId : jsstring) (user : User.t) :
  is_Some (member_in s roomId (User.id user)) →
  ∃ s' message event,
    ChatManager.addUserToRoom roomId user s = (Ok true, s')
    ∧ length (roomMembers s' roomId) = length (roomMembers s roomId)
    ∧ member_in s' roomId (User.id user) = Some user
    ∧ roomHistory s' roomId = roomHistory s roomId ++ [message]
    ∧ Message.type message = USER_JOINED
    ∧ Message.content message = User.username user ++ lit " joined the room"
    ∧ emitted s' = emitted s ++ [event]
    ∧ eventStream s' = deliver event <$> eventStream s
    ∧ ChatEvent.type event = ROOM_JOINED
    ∧ ChatEvent.payload event = PayloadUser roomId user.
Proof.
  unfold member_in at 1. intros [old Hold].
  destruct (room_at s roomId) as [room|] eqn:Hr; [simpl in Hold | done].
  destruct (addUserToRoom_run s roomId user room Hr) as (s' & Hrun & Hc).
  pose proof (committed_room_at _ _ _ _ _ Hc) as Hr'.
  exists s', (joinMessage s user),
    (eventOf s ROOM_JOINED (PayloadUser roomId user)).
  unfold member_in, roomMembers, roomHistory. rewrite Hr, Hr'. simpl.
  split_and!; try done.
  - unfold JsMap.values. rewrite !length_fmap.
    apply (size_set_present (Room.users room)). by exists old.
  - apply get_set_eq.
  - by destruct Hc as (_ & _ & _ & ? & _).
  - by destruct Hc as (_ & _ & ? & _).
Qed.

Lemma addUserToRoom_again_witness :
  is_Some (member_in joined_manager general (User.id alice))
  ∧ ∃ s', ChatManager.addUserToRoom general alice joined_manager = (Ok true, s')
          ∧ length (roomMembers s' general) = 1%nat
          ∧ length (roomHistory s' general) = 2%nat.
Proof.
  assert (is_Some (member_in joined_manager general (User.id alice))) as H
    by (vm_compute; eauto).
  split; [exact H|].
  destruct (addUserToRoom_again joined_manager general alice H)
    as (s' & m & e & Hrun & Hlen & _ & Hh & _).
  exists s'. split_and!; [done | by rewrite Hlen | by rewrite Hh].
Defined.

(** * Creating a room *)

Lemma createRoom_run s id name :
  ∃ s', ChatManager.createRoom id name s
        = (Ok (Room.mk id name [] [] (clock s (dates s))), s')
        ∧ rooms s' = JsMap.set id (Room.mk id name [] [] (clock s (dates s)))
                       (rooms s)
        ∧ roomSubjects s'
          = JsMap.set id
              (mkBehaviorSubject (Room.mk id name [] [] (clock s (dates s))) [])
              (roomSubjects s)
        ∧ eventStream s' = eventStream s
        ∧ emitted s' = emitted s
        ∧ clock s' = clock s ∧ uuid s' = uuid s.
Proof. run. eexists. split_and!; done. Qed.

(** C1, as the registry behaves: [createRoom] never fails.  It returns a
    room with the given identifier and name, no member and no message;
    that room is the one registered under the identifier afterwards,
    whether or not a room was registered there before, and the rooms under
    other identifiers are left alone. *)
Theorem createRoom_registers_fresh (s : State) (id name : jsstring) :
  ∃ room s',
    ChatManager.createRoom id name s = (Ok room, s')
    ∧ Room.id room = id ∧ Room.name room = name
    ∧ Room.users room = [] ∧ Room.messages room = []
    ∧ ChatManager.getRoom id s' = (Ok (Some room), s')
    ∧ roomMembers s' id = [] ∧ roomHistory s' id = []
    ∧ ∀ k, k ≠ id → room_at s' k = room_at s k.
Proof.
  destruct (createRoom_run s id name) as (s' & Hrun & Hrooms & _).
  eexists _, s'. split; [exact Hrun|].
  assert (room_at s' id = Some (Room.mk id name [] [] (clock s (dates s)))) as Hr.
  { unfold room_at. rewrite Hrooms. apply get_set_eq. }
  unfold roomMembers, roomHistory. rewrite Hr.
  split_and!; try done.
  - unfold ChatManager.getRoom, gets. by rewrite <- Hr.
  - intros k Hk. unfold room_at. rewrite Hrooms. by apply get_set_ne.
Qed.

(** C1 refuted: on a manager whose default room has a member and a
    message, creating a room under the same identifier does not throw, and
    the room found there afterwards has lost both. *)
Lemma createRoom_duplicate_overwrites :
  is_Some (room_at joined_manager general)
  ∧ (∀ e s', ChatManager.createRoom general (lit "Again") joined_manager
             ≠ (Throw e, s'))
  ∧ roomMembers joined_manager general = [alice]
  ∧ length (roomHistory joined_manager general) = 1%nat
  ∧ roomMembers
      (ChatManager.createRoom general (lit "Again") joined_manager).2 general
    = []
  ∧ roomHistory
      (ChatManager.createRoom general (lit "Again") joined_manager).2 general
    = [].
Proof.
  split_and!; try (vm_compute; done).
  vm_compute. eauto.
Qed.

(** * Reading the history *)

Lemma last_n_length {A} (n : nat) (l : list A) :
  length (last_n n l) = (n `min` length l)%nat.
Proof. unfold last_n. rewrite length_drop. lia. Qed.

Lemma last_n_suffix {A} (n : nat) (l : list A) :
  take (length l - n) l ++ last_n n l = l.
Proof. apply take_drop. Qed.

Lemma slice_tail {A} (k : Z) (l : list A) :
  0 < k →
  ChatManager.slice (- k) l
  = last_n (Z.to_nat (Z.min k (Z.of_nat (length l)))) l.
Proof.
  intros Hk. unfold ChatManager.slice, last_n.
  assert ((- k <? 0) = true) as -> by (apply Z.ltb_lt; lia).
  f_equal. lia.
Qed.

(** A negative limit makes [slice] drop from the front instead. *)
Lemma slice_front {A} (k : Z) (l : list A) :
  k < 0 → ChatManager.slice (- k) l = drop (Z.to_nat (- k)) l.
Proof.
  intros Hk. unfold ChatManager.slice.
  assert ((- k <? 0) = false) as -> by (apply Z.ltb_ge; lia).
  destruct (decide (- k ≤ Z.of_nat (length l))) as [Hle|Hgt].
  - by rewrite Z.min_l.
  - rewrite Z.min_r by lia. rewrite Nat2Z.id.
    rewrite !drop_ge; [done | lia | lia].
Qed.

(** The cases [getRoomMessages] tells apart.  Without a limit it returns
    the whole history in order; the test on the limit takes [0] for no
    limit, so the whole history comes back then too; for a positive limit
    [k] it returns the last [min k L] messages of a history of length [L],
    in their order; for an absent room it returns the empty sequence,
    whatever the limit. *)
Theorem getRoomMessages_spec (s : State) (roomId : jsstring) :
  ChatManager.getRoomMessages roomId None s = (Ok (roomHistory s roomId), s)
  ∧ ChatManager.getRoomMessages roomId (Some 0) s
    = (Ok (roomHistory s roomId), s)
  ∧ (∀ k, 0 < k →
       ChatManager.getRoomMessages roomId (Some k) s
       = (Ok (last_n
                (Z.to_nat (Z.min k (Z.of_nat (length (roomHistory s roomId)))))
                (roomHistory s roomId)), s))
  ∧ (room_at s roomId = None →
     ∀ limit, ChatManager.getRoomMessages roomId limit s = (Ok [], s)).
Proof.
  split_and!.
  - apply getRoomMessages_full.
  - unfold roomHistory. run. by destruct (JsMap.get roomId (rooms s)).
  - intros k Hk. unfold roomHistory. run.
    destruct (JsMap.get roomId (rooms s)) as [room|]; cbn; [|done].
    rewrite decide_False by lia. cbn. by rewrite slice_tail.
  - intros Hr limit. run. unfold room_at in Hr. by rewrite Hr.
Qed.

Lemma getRoomMessages_spec_witness :
  length (roomHistory chatting_manager general) = 2%nat
  ∧ ChatManager.getRoomMessages general (Some 1) chatting_manager
    = (Ok (drop 1 (roomHistory chatting_manager general)), chatting_manager)
  ∧ ChatManager.getRoomMessages (lit "nowhere") (Some 1) chatting_manager
    = (Ok [], chatting_manager).
Proof.
  destruct (getRoomMessages_spec chatting_manager general) as (_ & _ & Hk & _).
  destruct (getRoomMessages_spec chatting_manager (lit "nowhere"))
    as (_ & _ & _ & Habs).
  split_and!.
  - reflexivity.
  - rewrite (Hk 1) by lia. reflexivity.
  - apply Habs. reflexivity.
Defined.

(** C4: the limit [0] is where the code parts from the claim.  On a room
    whose history holds one message, [getRoomMessages] with the limit [0]
    returns that whole history, not its last [min 0 1 = 0] messages. *)
Lemma getRoomMessages_limit_zero :
  length (roomHistory joined_manager general) = 1%nat
  ∧ ChatManager.getRoomMessages general (Some 0) joined_manager
    = (Ok (roomHistory joined_manager general), joined_manager)
  ∧ ChatManager.getRoomMessages general (Some 0) joined_manager
    ≠ (Ok (last_n
             (Z.to_nat
                (Z.min 0 (Z.of_nat (length (roomHistory joined_manager general)))))
             (roomHistory joined_manager general)), joined_manager).
Proof.
  split_and!; [reflexivity | reflexivity |].
  intros H. vm_compute in H. discriminate H.
Qed.

(** * Absent rooms and users *)

Lemma createRoom_consistent s id name room s' :
  consistent s → ChatManager.createRoom id name s = (Ok room, s') →
  consistent s'.
Proof.
  intros [Hkeys Hids] Hrun.
  destruct (createRoom_run s id name) as (s'' & Hrun' & Hrooms & Hsubj & _).
  rewrite Hrun in Hrun'. injection Hrun' as -> <-.
  split.
  - intros k. rewrite Hrooms, Hsubj.
    destruct (decide (id = k)) as [<-|Hne].
    + by rewrite !get_set_eq.
    + by rewrite !get_set_ne.
  - intros k r. rewrite Hrooms.
    destruct (decide (id = k)) as [<-|Hne].
    + rewrite get_set_eq. by intros [= <-].
    + rewrite get_set_ne by done. apply Hids.
Qed.

Lemma committed_consistent roomId room room' e s s' :
  consistent s → room_at s roomId = Some room → Room.id room' = Room.id room →
  committed roomId room' e s s' → consistent s'.
Proof.
  intros [Hkeys Hids] Hr Hid (Hrooms & Hsubj & _).
  pose proof (Hids _ _ Hr) as Hroom. rewrite Hid, Hroom in Hrooms.
  split.
  - intros k. rewrite Hsubj, <- Hkeys, Hrooms.
    destruct (decide (roomId = k)) as [<-|Hne].
    + rewrite get_set_eq. unfold room_at in Hr. by rewrite Hr.
    + by rewrite !get_set_ne.
  - intros k r. rewrite Hrooms.
    destruct (decide (roomId = k)) as [<-|Hne].
    + rewrite get_set_eq. intros [= <-]. congruence.
    + rewrite !get_set_ne by done. apply Hids.
Qed.

Lemma new_consistent clock uuid : consistent (ChatManager.new clock uuid).
Proof.
  unfold ChatManager.new, ChatManager.constructor, mbind, M_bind.
  destruct (createRoom_run (ChatManager.empty clock uuid) (lit "general")
              (lit "General Chat")) as (s' & Hrun & _).
  rewrite Hrun. cbn. eapply createRoom_consistent; [|exact Hrun].
  by split.
Qed.

Lemma addUserToRoom_absent s roomId user :
  room_at s roomId = None →
  ChatManager.addUserToRoom roomId user s = (Ok false, s).
Proof. intros Hr. run. unfold room_at in Hr. by rewrite Hr. Qed.

Lemma removeUserFromRoom_rejected s roomId userId :
  member_in s roomId userId = None →
  ChatManager.removeUserFromRoom roomId userId s = (Ok false, s).
Proof.
  unfold member_in, room_at. intros H. run.
  destruct (JsMap.get roomId (rooms s)) as [room|]; cbn in *; [|done].
  by rewrite H.
Qed.

Lemma addMessage_rejected s roomId userId content :
  member_in s roomId userId = None →
  ChatManager.addMessage roomId userId content s = (Ok None, s).
Proof.
  unfold member_in, room_at. intros H. run.
  destruct (JsMap.get roomId (rooms s)) as [room|]; cbn in *; [|done].
  by rewrite H.
Qed.

(** Every state reached by calls on a consistent manager is consistent. *)
Lemma call_consistent s c r s' :
  consistent s → call c s = (Ok r, s') → consistent s'.
Proof.
  intros Hs.
  destruct c as [id name|roomId user|roomId userId|roomId userId content];
    unfold call, mbind, M_bind, mret, M_ret.
  - destruct (createRoom_run s id name) as (s1 & Hrun & _). rewrite Hrun.
    intros [= _ <-]. by eapply createRoom_consistent.
  - destruct (room_at s roomId) as [room|] eqn:Hr.
    + destruct (addUserToRoom_run s roomId user room Hr) as (s1 & -> & Hc).
      intros [= _ <-].
      refine (committed_consistent _ room _ _ _ _ Hs Hr _ Hc); reflexivity.
    + rewrite addUserToRoom_absent by done. by intros [= _ <-].
  - destruct (member_in s roomId userId) as [user|] eqn:Hm.
    + unfold member_in in Hm.
      destruct (room_at s roomId) as [room|] eqn:Hr; [simpl in Hm|done].
      destruct (removeUserFromRoom_run s roomId userId room user Hr Hm)
        as (s1 & -> & Hc).
      intros [= _ <-].
      refine (committed_consistent _ room _ _ _ _ Hs Hr _ Hc); reflexivity.
    + rewrite removeUserFromRoom_rejected by done. by intros [= _ <-].
  - destruct (member_in s roomId userId) as [user|] eqn:Hm.
    + unfold member_in in Hm.
      destruct (room_at s roomId) as [room|] eqn:Hr; [simpl in Hm|done].
      destruct (addMessage_run s roomId userId content room user Hr Hm)
        as (s1 & -> & Hc).
      intros [= _ <-].
      refine (committed_consistent _ room _ _ _ _ Hs Hr _ Hc); reflexivity.
    + rewrite addMessage_rejected by done. by intros [= _ <-].
Qed.




(** * The event bus *)

Lemma deliver_received e p l :
  deliver e (mkObserver p l) = mkObserver p (l ++ omap p [e]).
Proof.
  unfold deliver. simpl. destruct (p e); [done|]. by rewrite app_nil_r.
Qed.

(** What one call publishes, and what reaches an observer of the event
    subject and a subscriber of the message stream of a room [R]. *)
Lemma call_effect c s :
  ∃ r s' es,
    call c s = (Ok r, s')
    ∧ emitted s' = emitted s ++ es
    ∧ (∀ i p l, eventStream s !! i = Some (mkObserver p l) →
                eventStream s' !! i = Some (mkObserver p (l ++ omap p es)))
    ∧ (∀ R o st, ChatManager.getMessageStream R st = (Ok o, st) →
                 omap (stream_of o) es
                 = VMessage <$> option_list (posted_to R (c, r))).
Proof.
  assert (∀ (r : Returned) (s' : State),
            emitted s' = emitted s → eventStream s' = eventStream s →
            match r with RMessage (Some _) => False | _ => True end →
            ∃ es, emitted s' = emitted s ++ es
              ∧ (∀ i p l, eventStream s !! i = Some (mkObserver p l) →
                   eventStream s' !! i = Some (mkObserver p (l ++ omap p es)))
              ∧ (∀ R o st, ChatManager.getMessageStream R st = (Ok o, st) →
                   omap (stream_of o) es
                   = VMessage <$> option_list (posted_to R (c, r)))) as Hquiet.
  { intros r s' Hem Hobs Hr. exists []. split_and!.
    - by rewrite app_nil_r.
    - intros i p l. rewrite Hobs, app_nil_r. done.
    - intros R o st _. simpl. unfold posted_to.
      destruct c; try done. by destruct r as [| |[m|]]. }
  assert (∀ roomId room' e s',
            committed roomId room' e s s' →
            emitted s' = emitted s ++ [e]
            ∧ (∀ i p l, eventStream s !! i = Some (mkObserver p l) →
                 eventStream s' !! i = Some (mkObserver p (l ++ omap p [e]))))
    as Hloud.
  { intros roomId room' e s' (_ & _ & Hobs & Hem & _). split; [done|].
    intros i p l Hi. rewrite Hobs, list_lookup_fmap, Hi. simpl.
    by rewrite deliver_received. }
  destruct c as [id name|roomId user|roomId userId|roomId userId content];
    unfold call, mbind, M_bind, mret, M_ret.
  - destruct (createRoom_run s id name) as (s1 & -> & _ & _ & Hobs & Hem & _).
    destruct (Hquiet (RRoom (Room.mk id name [] [] (clock s (dates s)))) s1)
      as (es & ?); eauto 10.
  - destruct (room_at s roomId) as [room|] eqn:Hr.
    + destruct (addUserToRoom_run s roomId user room Hr) as (s1 & -> & Hc).
      destruct (Hloud _ _ _ _ Hc) as [Hem Hobs].
      eexists _, s1, [_]. split_and!; [done | exact Hem | exact Hobs |].
      intros R o st [= <-]. done.
    + rewrite addUserToRoom_absent by done.
      destruct (Hquiet (RBool false) s) as (es & ?); eauto 10.
  - destruct (member_in s roomId userId) as [user|] eqn:Hm.
    + unfold member_in in Hm.
      destruct (room_at s roomId) as [room|] eqn:Hr; [simpl in Hm|done].
      destruct (removeUserFromRoom_run s roomId userId room user Hr Hm)
        as (s1 & -> & Hc).
      destruct (Hloud _ _ _ _ Hc) as [Hem Hobs].
      eexists _, s1, [_]. split_and!; [done | exact Hem | exact Hobs |].
      intros R o st [= <-]. done.
    + rewrite removeUserFromRoom_rejected by done.
      destruct (Hquiet (RBool false) s) as (es & ?); eauto 10.
  - destruct (member_in s roomId userId) as [user|] eqn:Hm.
    + unfold member_in in Hm.
      destruct (room_at s roomId) as [room|] eqn:Hr; [simpl in Hm|done].
      destruct (addMessage_run s roomId userId content room user Hr Hm)
        as (s1 & -> & Hc).
      destruct (Hloud _ _ _ _ Hc) as [Hem Hobs].
      eexists _, s1, [_]. split_and!; [done | exact Hem | exact Hobs |].
      intros R o st [= <-]. unfold posted_to. simpl.
      unfold stream_of, rx_map, rx_filter, asObservable, eventOf. simpl.
      case_bool_decide; case_decide; done.
    + rewrite addMessage_rejected by done.
      destruct (Hquiet (RMessage None) s) as (es & ?); eauto 10.
Qed.

Lemma call_all_effect cs s :
  ∃ outs s' es,
    call_all cs s = (Ok outs, s')
    ∧ length outs = length cs
    ∧ emitted s' = emitted s ++ es
    ∧ (∀ i p l, eventStream s !! i = Some (mkObserver p l) →
                eventStream s' !! i = Some (mkObserver p (l ++ omap p es)))
    ∧ (∀ R o st, ChatManager.getMessageStream R st = (Ok o, st) →
                 omap (stream_of o) es
                 = VMessage <$> omap (posted_to R) (zip cs outs)).
Proof.
  revert s. induction cs as [|c cs IH]; intros s.
  - exists [], s, []. split_and!; try done.
    + by rewrite app_nil_r.
    + intros i p l. by rewrite app_nil_r.
  - destruct (call_effect c s) as (r & s1 & es1 & Hc & Hem1 & Hobs1 & Hv1).
    destruct (IH s1) as (outs & s2 & es2 & Hcs & Hlen & Hem2 & Hobs2 & Hv2).
    exists (r :: outs), s2, (es1 ++ es2). split_and!.
    + simpl. unfold mbind, M_bind, mret, M_ret. by rewrite Hc, Hcs.
    + simpl. by rewrite Hlen.
    + by rewrite Hem2, Hem1, (assoc_L (++)).
    + intros i p l Hi. rewrite omap_app, (assoc_L (++)).
      by apply Hobs2, Hobs1.
    + intros R o st Ho. rewrite omap_app, (Hv1 R o st Ho), (Hv2 R o st Ho).
      generalize (posted_to R). intros f. simpl. by destruct (f (c, r)).
Qed.

(** C6: a subscriber attached to the message stream of room [R] before a
    sequence of calls (room creations, joins, leaves and posts, to any
    rooms) has received, once the calls are done, exactly the messages
    returned by the accepted posts to [R], as messages, in the order of the
    calls, and nothing else. *)
Theorem message_stream_delivery (s : State) (R : jsstring) (cs : list Call) :
  ∃ o i s1 outs s2 subscriber,
    ChatManager.getMessageStream R s = (Ok o, s)
    ∧ ChatManager.subscribe o s = (Ok i, s1)
    ∧ call_all cs s1 = (Ok outs, s2)
    ∧ length outs = length cs
    ∧ eventStream s2 !! i = Some subscriber
    ∧ received subscriber = VMessage <$> omap (posted_to R) (zip cs outs).
Proof.
  destruct (ChatManager.getMessageStream R s) as [res st] eqn:Hget.
  pose proof Hget as Hget'. injection Hget' as <- <-.
  destruct (call_all_effect cs
              (with_eventStream
                 (λ obs, obs ++ [mkObserver (stream_of
                    (rx_map (λ event, payload_message (ChatEvent.payload event))
                       (rx_filter
                          (λ event,
                             bool_decide (ChatEvent.type event = MESSAGE_SENT)
                             && bool_decide
                                  (payload_roomId (ChatEvent.payload event) = R))
                          asObservable))) []]) s))
    as (outs & s2 & es & Hcs & Hlen & _ & Hobs & Hv).
  eexists _, (length (eventStream s)), _, outs, s2, _.
  split_and!; [reflexivity | reflexivity | exact Hcs | exact Hlen | |].
  - apply Hobs. simpl. by rewrite lookup_app_r, Nat.sub_diag.
  - simpl. by apply (Hv R _ s).
Qed.

(** * The activity tracker *)

Section prune.
Variable c : Z.
Implicit Types (m : gmap jsstring Z) (l : list (jsstring * Z)).

Lemma prune_absent l m k :
  m !! k = None →
  foldl (UserActivityTransform.prune_entry c) m l !! k = None.
Proof.
  revert m. induction l as [|[k' v'] l IH]; intros m Hk; [done|].
  simpl. apply IH. unfold UserActivityTransform.prune_entry. simpl.
  case_decide; [|done]. rewrite lookup_delete_None. by right.
Qed.

Lemma prune_kept l m k :
  (∀ v, (k, v) ∈ l → ¬ v < c) →
  foldl (UserActivityTransform.prune_entry c) m l !! k = m !! k.
Proof.
  revert m. induction l as [|[k' v'] l IH]; intros m Hl; [done|].
  simpl. rewrite IH.
  - unfold UserActivityTransform.prune_entry. simpl.
    case_decide as Hv; [|done].
    apply lookup_delete_ne. intros ->.
    apply (Hl v'); [apply list_elem_of_here | done].
  - intros v Hv. apply Hl. by apply list_elem_of_further.
Qed.

Lemma prune_dropped l m k v :
  (k, v) ∈ l → v < c →
  foldl (UserActivityTransform.prune_entry c) m l !! k = None.
Proof.
  revert m. induction l as [|[k' v'] l IH]; intros m Hin Hv.
  - by apply elem_of_nil in Hin.
  - apply elem_of_cons in Hin as [[= <- <-]|Hin]; simpl.
    + apply prune_absent. unfold UserActivityTransform.prune_entry. simpl.
      rewrite decide_True by done. apply lookup_delete_eq.
    + by apply IH.
Qed.

Lemma prune_lookup m k t :
  foldl (UserActivityTransform.prune_entry c) m (map_to_list m) !! k = Some t
  ↔ m !! k = Some t ∧ ¬ t < c.
Proof.
  split.
  - intros H. destruct (m !! k) as [t0|] eqn:Hk.
    + destruct (decide (t0 < c)) as [Hold|Hnew].
      * rewrite (prune_dropped _ _ k t0) in H; [done| |done].
        by apply elem_of_map_to_list.
      * rewrite prune_kept, Hk in H.
        -- injection H as <-. done.
        -- intros v Hv. apply elem_of_map_to_list in Hv. congruence.
    + by rewrite prune_absent in H.
  - intros [Hk Hnew]. rewrite prune_kept; [done|].
    intros v Hv. apply elem_of_map_to_list in Hv. congruence.
Qed.
End prune.


(** C9: each event written to the tracker stores the clock reading under
    the user's identifier, leaves every other entry alone, and pushes the
    event with that reading and with the number of distinct identifiers
    tracked at that moment; two events of two distinct users on a new
    tracker are pushed with the counts 1 and 2.  [getActiveUsers] keeps
    exactly the entries that are not older than five minutes at its clock
    reading, returns how many remain, and pushes nothing. *)
Theorem activity_tracker_spec (now : Z) (st : UserActivityTransform.t) :
  (∀ d,
     let st' := UserActivityTransform._transform now st d in
     let id := User.id (UserActivityTransform.user d) in
     UserActivityTransform.userActivity st' !! id = Some now
     ∧ (∀ k, k ≠ id → UserActivityTransform.userActivity st' !! k
                      = UserActivityTransform.userActivity st !! k)
     ∧ UserActivityTransform.pushed st'
       = UserActivityTransform.pushed st
         ++ [UserActivityTransform.mkActivity d (Some now)
               (size (dom (UserActivityTransform.userActivity st')))])
  ∧ (∀ d1 d2 now',
       User.id (UserActivityTransform.user d1)
       ≠ User.id (UserActivityTransform.user d2) →
       UserActivityTransform.activeUsers
       <$> UserActivityTransform.pushed
             (UserActivityTransform.write_all UserActivityTransform.new
                [(now, d1); (now', d2)])
       = [1; 2]%nat)
  ∧ (let (count, st') := UserActivityTransform.getActiveUsers now st in
     (∀ k t, UserActivityTransform.userActivity st' !! k = Some t
             ↔ UserActivityTransform.userActivity st !! k = Some t
               ∧ now - t ≤ 5 * 60 * 1000)
     ∧ count = size (dom (UserActivityTransform.userActivity st'))
     ∧ UserActivityTransform.pushed st' = UserActivityTransform.pushed st).
Proof.
  split_and!.
  - intros d. cbv zeta. unfold UserActivityTransform._transform. simpl.
    rewrite lookup_insert_eq, size_dom. split_and!; [done | | done].
    intros k Hk. by apply lookup_insert_ne.
  - intros d1 d2 now' Hne.
    unfold UserActivityTransform.write_all, UserActivityTransform._transform.
    simpl. rewrite insert_empty, map_size_singleton.
    rewrite map_size_insert_None; [by rewrite map_size_singleton|].
    by apply lookup_singleton_ne.
  - unfold UserActivityTransform.getActiveUsers. simpl. split_and!.
    + intros k t. rewrite prune_lookup. split; intros [? ?]; split; (done || lia).
    + by rewrite size_dom.
    + done.
Qed.

Lemma activity_tracker_spec_witness :
  User.id alice ≠ lit "u-2"
  ∧ UserActivityTransform.activeUsers
    <$> UserActivityTransform.pushed
          (UserActivityTransform.write_all UserActivityTransform.new
             [(10, UserActivityTransform.mkData alice (lit "joined"));
              (20, UserActivityTransform.mkData
                     (User.mk (lit "u-2") (lit "bob") 15) (lit "joined"))])
    = [1; 2]%nat.
Proof.
  assert (User.id alice ≠ lit "u-2") as Hne by (vm_compute; discriminate).
  split; [exact Hne|].
  destruct (activity_tracker_spec 10 UserActivityTransform.new) as (_ & H & _).
  exact (H (UserActivityTransform.mkData alice (lit "joined"))
           (UserActivityTransform.mkData (User.mk (lit "u-2") (lit "bob") 15)
              (lit "joined")) 20 Hne).
Defined.

(** * The scenarios of the test suites, replayed on the model *)

Example sanitizer_test_suite :
  Message.content
    (MessageTransform.processMessage
       (Message.mk (lit "1") (lit "user1") (lit "testuser")
          (lit "<script>alert('xss')</script>Hello <b>world</b>") 0 TEXT))
  = lit "&lt;script&gt;alert('xss')&lt;/script&gt;Hello &lt;b&gt;world&lt;/b&gt;".
Proof. reflexivity. Qed.

Example three_posts_to_R_one_to_Q :
  let R := lit "R" in
  let Q := lit "Q" in
  let bob := User.mk (lit "u-2") (lit "bob") 998 in
  let setup :=
    [CreateRoom R (lit "Room R"); CreateRoom Q (lit "Room Q");
     AddUserToRoom R alice; AddUserToRoom Q bob] in
  let posts :=
    [AddMessage R (lit "u-1") (lit "one"); AddMessage Q (lit "u-2") (lit "no");
     AddMessage R (lit "u-1") (lit "two"); AddMessage R (lit "u-2") (lit "not in");
     AddMessage R (lit "u-1") (lit "<three>")] in
  let s0 := (call_all setup fresh_manager).2 in
  let s1 := (ChatManager.subscribe
               (rx_map (λ event, payload_message (ChatEvent.payload event))
                  (rx_filter
                     (λ event,
                        bool_decide (ChatEvent.type event = MESSAGE_SENT)
                        && bool_decide
                             (payload_roomId (ChatEvent.payload event) = R))
                     asObservable)) s0).2 in
  let s2 := (call_all posts s1).2 in
  (λ o, match o with
        | VMessage m => Message.content m
        | _ => lit "?"
        end) <$> (default [] (received <$> eventStream s2 !! 0%nat))
  = [lit "one"; lit "two"; lit "<three>"].
Proof. reflexivity. Qed.

Example prune_after_the_window :
  let st :=
    UserActivityTransform.write_all UserActivityTransform.new
      [(10, UserActivityTransform.mkData alice (lit "joined"));
       (20, UserActivityTransform.mkData
              (User.mk (lit "u-2") (lit "bob") 15) (lit "joined"))] in
  (UserActivityTransform.getActiveUsers (20 + 5 * 60 * 1000) st).1 = 1%nat
  ∧ (UserActivityTransform.getActiveUsers (21 + 5 * 60 * 1000) st).1 = 0%nat.
Proof. split; vm_compute; reflexivity. Qed.

(** * Further properties of the room registry *)

Section jsmap_order.
Context {V : Type}.
Implicit Types (m : list (jsstring * V)) (k : jsstring) (v : V).

Lemma set_absent_app m k v :
  JsMap.get k m = None → JsMap.set k v m = m ++ [(k, v)].
Proof.
  induction m as [|[k' v'] m IH]; simpl; [done|].
  destruct (decide (k' = k)); [done|]. intros H. by rewrite IH.
Qed.

Lemma set_present_split m k v v0 :
  JsMap.get k m = Some v0 →
  ∃ m1 m2, m = m1 ++ (k, v0) :: m2
           ∧ JsMap.set k v m = m1 ++ (k, v) :: m2
           ∧ JsMap.get k m1 = None.
Proof.
  induction m as [|[k' v'] m IH]; simpl; [done|].
  destruct (decide (k' = k)) as [->|Hne].
  - intros [= ->]. by exists [], m.
  - intros H. destruct (IH H) as (m1 & m2 & -> & -> & Hm1).
    exists ((k', v') :: m1), m2. split_and!; [done | done |].
    simpl. by rewrite decide_False.
Qed.


End jsmap_order.

Lemma removeUserFromRoom_member s roomId userId user :
  member_in s roomId userId = Some user →
  ∃ room s',
    room_at s roomId = Some room
    ∧ JsMap.get userId (Room.users room) = Some user
    ∧ ChatManager.removeUserFromRoom roomId userId s = (Ok true, s')
    ∧ committed roomId
        (push (leaveMessage s user)
           (set_users (JsMap.delete userId (Room.users room)) room))
        (eventOf s ROOM_LEFT (PayloadUser roomId user)) s s'.
Proof.
  unfold member_in. intros Hm.
  destruct (room_at s roomId) as [room|] eqn:Hr; [simpl in Hm|done].
  destruct (removeUserFromRoom_run s roomId userId room user Hr Hm)
    as (s' & Hrun & Hc).
  by exists room, s'.
Qed.

(** X1: [removeUserFromRoom] returns [false] and changes nothing when the
    room is absent or the user is not one of its members.  Otherwise it
    returns [true]: the user is no longer a member, the other members are
    kept, the history gains one [USER_LEFT] message written by "system"
    whose content is the stored name of the user followed by
    " left the room", and one [ROOM_LEFT] event carrying the room
    identifier and the stored user record is published. *)
Theorem removeUserFromRoom_spec (s : State) (roomId userId : jsstring) :
  match member_in s roomId userId with
  | None => ChatManager.removeUserFromRoom roomId userId s = (Ok false, s)
  | Some user =>
      ∃ s' message event,
        ChatManager.removeUserFromRoom roomId userId s = (Ok true, s')
        ∧ member_in s' roomId userId = None
        ∧ (∀ u, u ≠ userId → member_in s' roomId u = member_in s roomId u)
        ∧ roomHistory s' roomId = roomHistory s roomId ++ [message]
        ∧ Message.type message = USER_LEFT
        ∧ Message.userId message = lit "system"
        ∧ Message.content message = User.username user ++ lit " left the room"
        ∧ emitted s' = emitted s ++ [event]
        ∧ ChatEvent.type event = ROOM_LEFT
        ∧ ChatEvent.payload event = PayloadUser roomId user
  end.
Proof.
  destruct (member_in s roomId userId) as [user|] eqn:Hm.
  - destruct (removeUserFromRoom_member _ _ _ _ Hm)
      as (room & s' & Hr & Hu & Hrun & Hc).
    pose proof (committed_room_at _ _ _ _ _ Hc) as Hr'.
    exists s', (leaveMessage s user),
      (eventOf s ROOM_LEFT (PayloadUser roomId user)).
    unfold member_in, roomHistory. rewrite Hr, Hr'. simpl.
    split_and!; try done.
    + apply get_delete_eq.
    + intros u Hu'. by apply get_delete_ne.
    + by destruct Hc as (_ & _ & _ & ? & _).
  - by apply removeUserFromRoom_rejected.
Qed.





(** X4: [getAllRooms] lists the rooms in the order of their first
    creation: creating a room under a new identifier puts it at the end of
    the listing, creating one under an identifier in use puts the new room
    in the place of the old one and leaves the rest of the listing as it
    was. *)
Theorem createRoom_listing (s : State) (id name : jsstring) :
  ∃ room s',
    ChatManager.createRoom id name s = (Ok room, s')
    ∧ match room_at s id with
      | None =>
          ChatManager.getAllRooms s'
          = (Ok (JsMap.values (rooms s) ++ [room]), s')
      | Some old =>
          ∃ before after,
            ChatManager.getAllRooms s = (Ok (before ++ old :: after), s)
            ∧ ChatManager.getAllRooms s'
              = (Ok (before ++ room :: after), s')
      end.
Proof.
  destruct (createRoom_run s id name) as (s' & Hrun & Hrooms & _).
  eexists _, s'. split; [exact Hrun|].
  unfold ChatManager.getAllRooms, gets, room_at. rewrite Hrooms.
  destruct (JsMap.get id (rooms s)) as [old|] eqn:Hold.
  - destruct (set_present_split (rooms s) id
                (Room.mk id name [] [] (clock s (dates s))) old Hold)
      as (m1 & m2 & Hm & -> & _).
    exists (JsMap.values m1), (JsMap.values m2). rewrite Hm.
    unfold JsMap.values. rewrite !fmap_app. done.
  - rewrite set_absent_app by done. unfold JsMap.values.
    by rewrite fmap_app.
Qed.

Lemma committed_other_rooms roomId room room' e s s' R :
  consistent s → room_at s roomId = Some room → Room.id room' = Room.id room →
  committed roomId room' e s s' → roomId ≠ R → room_at s' R = room_at s R.
Proof.
  intros [_ Hids] Hr Hid (Hrooms & _) Hne. unfold room_at. rewrite Hrooms.
  rewrite Hid, (Hids _ _ Hr). by rewrite !get_set_ne.
Qed.

Lemma call_frame (s s' : State) (c : Call) (r : Returned) (R : jsstring) :
  consistent s → call c s = (Ok r, s') → target c ≠ R →
  room_at s' R = room_at s R.
Proof.
  intros Hs.
  destruct c as [id name|roomId user|roomId userId|roomId userId content];
    unfold call, mbind, M_bind, mret, M_ret.
  - destruct (createRoom_run s id name) as (s1 & -> & Hrooms & _).
    intros [= _ <-] Hne. unfold room_at. rewrite Hrooms. by apply get_set_ne.
  - destruct (room_at s roomId) as [room|] eqn:Hr.
    + destruct (addUserToRoom_run s roomId user room Hr) as (s1 & -> & Hc).
      intros [= _ <-] Hne.
      by refine (committed_other_rooms _ room _ _ _ _ _ Hs Hr _ Hc Hne).
    + rewrite addUserToRoom_absent by done. by intros [= _ <-].
  - destruct (member_in s roomId userId) as [user|] eqn:Hm.
    + destruct (removeUserFromRoom_member _ _ _ _ Hm)
        as (room & s1 & Hr & Hu & -> & Hc).
      intros [= _ <-] Hne.
      by refine (committed_other_rooms _ room _ _ _ _ _ Hs Hr _ Hc Hne).
    + rewrite removeUserFromRoom_rejected by done. by intros [= _ <-].
  - destruct (member_in s roomId userId) as [user|] eqn:Hm.
    + unfold member_in in Hm.
      destruct (room_at s roomId) as [room|] eqn:Hr; [simpl in Hm|done].
      destruct (addMessage_run s roomId userId content room user Hr Hm)
        as (s1 & -> & Hc).
      intros [= _ <-] Hne.
      by refine (committed_other_rooms _ room _ _ _ _ _ Hs Hr _ Hc Hne).
    + rewrite addMessage_rejected by done. by intros [= _ <-].
Qed.

(** X5: on a consistent manager a call changes no room but the one it is
    aimed at. *)
Theorem call_other_rooms (s s' : State) (c : Call) (r : Returned)
    (R : jsstring) :
  consistent s → call c s = (Ok r, s') → target c ≠ R →
  room_at s' R = room_at s R.
Proof. apply call_frame. Qed.

Lemma call_other_rooms_witness :
  room_at
    (call (CreateRoom (lit "R") (lit "Room R")) joined_manager).2 general
  = room_at joined_manager general.
Proof.
  assert (consistent joined_manager) as Hc.
  { apply (call_consistent fresh_manager (AddUserToRoom general alice)
             (RBool true) joined_manager);
      [apply new_consistent | vm_compute; reflexivity]. }
  apply (call_other_rooms joined_manager
           (call (CreateRoom (lit "R") (lit "Room R")) joined_manager).2
           (CreateRoom (lit "R") (lit "Room R"))
           (RRoom (Room.mk (lit "R") (lit "Room R") [] []
                     (clock joined_manager (dates joined_manager))))
           general Hc); [vm_compute; reflexivity | vm_compute; discriminate].
Defined.

(** ** Invariants of the states a manager goes through *)

Lemma addUserToRoom_subjects s roomId user room :
  room_at s roomId = Some room →
  roomSubjects (ChatManager.addUserToRoom roomId user s).2
  = subjects_after
      (push (joinMessage s user)
         (set_users (JsMap.set (User.id user) user (Room.users room)) room)) s.
Proof.
  intros Hr. run. unfold room_at in Hr. rewrite Hr. cbn.
  unfold subjects_after. cbn.
  by destruct (JsMap.get (Room.id room) (roomSubjects s)).
Qed.

Lemma removeUserFromRoom_subjects s roomId userId room user :
  room_at s roomId = Some room →
  JsMap.get userId (Room.users room) = Some user →
  roomSubjects (ChatManager.removeUserFromRoom roomId userId s).2
  = subjects_after
      (push (leaveMessage s user)
         (set_users (JsMap.delete userId (Room.users room)) room)) s.
Proof.
  intros Hr Hu. run. unfold room_at in Hr. rewrite Hr. cbn. rewrite Hu. cbn.
  unfold subjects_after. cbn.
  by destruct (JsMap.get (Room.id room) (roomSubjects s)).
Qed.

Lemma addMessage_subjects s roomId userId content room user :
  room_at s roomId = Some room →
  JsMap.get userId (Room.users room) = Some user →
  roomSubjects (ChatManager.addMessage roomId userId content s).2
  = subjects_after (push (textMessage s userId user content) room) s.
Proof.
  intros Hr Hu. run. unfold room_at in Hr. rewrite Hr. cbn. rewrite Hu. cbn.
  unfold subjects_after. cbn.
  by destruct (JsMap.get (Room.id room) (roomSubjects s)).
Qed.

Lemma committed_synced roomId room room' e s s' :
  consistent s → synced s → room_at s roomId = Some room →
  Room.id room' = Room.id room → committed roomId room' e s s' →
  roomSubjects s' = subjects_after room' s → synced s'.
Proof.
  intros Hs Hsync Hr Hid Hc Hsubj k r Hk.
  pose proof (proj2 Hs _ _ Hr) as Hroom.
  destruct (Hsync _ _ Hr) as (b & Hb & _).
  rewrite Hsubj. unfold subjects_after. rewrite Hid, Hroom, Hb.
  destruct (decide (roomId = k)) as [<-|Hne].
  - rewrite (committed_room_at _ _ _ _ _ Hc) in Hk. injection Hk as <-.
    rewrite get_set_eq. by eexists.
  - rewrite (committed_other_rooms _ _ _ _ _ _ _ Hs Hr Hid Hc Hne) in Hk.
    rewrite get_set_ne by done. by apply Hsync.
Qed.

Lemma createRoom_synced s id name room s' :
  synced s → ChatManager.createRoom id name s = (Ok room, s') → synced s'.
Proof.
  intros Hsync Hrun.
  destruct (createRoom_run s id name) as (s'' & Hrun' & Hrooms & Hsubj & _).
  rewrite Hrun in Hrun'. injection Hrun' as -> <-.
  intros k r. unfold room_at. rewrite Hrooms, Hsubj.
  destruct (decide (id = k)) as [<-|Hne].
  - rewrite !get_set_eq. intros [= <-]. by eexists.
  - rewrite !get_set_ne by done. apply Hsync.
Qed.

Lemma call_synced s c r s' :
  consistent s → synced s → call c s = (Ok r, s') → synced s'.
Proof.
  intros Hs Hsync.
  destruct c as [id name|roomId user|roomId userId|roomId userId content];
    unfold call, mbind, M_bind, mret, M_ret.
  - destruct (createRoom_run s id name) as (s1 & Hrun & _). rewrite Hrun.
    intros [= _ <-]. by eapply createRoom_synced.
  - destruct (room_at s roomId) as [room|] eqn:Hr.
    + pose proof (addUserToRoom_subjects s roomId user room Hr) as Hsubj.
      destruct (addUserToRoom_run s roomId user room Hr) as (s1 & Hrun & Hc).
      rewrite Hrun in Hsubj |- *. intros [= _ <-].
      by refine (committed_synced _ room _ _ _ _ Hs Hsync Hr _ Hc Hsubj).
    + rewrite addUserToRoom_absent by done. by intros [= _ <-].
  - destruct (member_in s roomId userId) as [user|] eqn:Hm.
    + destruct (removeUserFromRoom_member _ _ _ _ Hm)
        as (room & s1 & Hr & Hu & Hrun & Hc).
      pose proof (removeUserFromRoom_subjects s roomId userId room user Hr Hu)
        as Hsubj.
      rewrite Hrun in Hsubj |- *. intros [= _ <-].
      by refine (committed_synced _ room _ _ _ _ Hs Hsync Hr _ Hc Hsubj).
    + rewrite removeUserFromRoom_rejected by done. by intros [= _ <-].
  - destruct (member_in s roomId userId) as [user|] eqn:Hm.
    + unfold member_in in Hm.
      destruct (room_at s roomId) as [room|] eqn:Hr; [simpl in Hm|done].
      pose proof (addMessage_subjects s roomId userId content room user Hr Hm)
        as Hsubj.
      destruct (addMessage_run s roomId userId content room user Hr Hm)
        as (s1 & Hrun & Hc).
      rewrite Hrun in Hsubj |- *. intros [= _ <-].
      by refine (committed_synced _ room _ _ _ _ Hs Hsync Hr _ Hc Hsubj).
    + rewrite addMessage_rejected by done. by intros [= _ <-].
Qed.

Lemma call_all_cons c cs s r s1 :
  call c s = (Ok r, s1) →
  call_all (c :: cs) s
  = match call_all cs s1 with
    | (Ok rs, s2) => (Ok (r :: rs), s2)
    | (Throw e, s2) => (Throw e, s2)
    end.
Proof.
  intros Hc. simpl. unfold mbind, M_bind, mret, M_ret. rewrite Hc.
  by destruct (call_all cs s1) as [[?|?] ?].
Qed.

(** Induction along a sequence of calls: what holds before and is kept by
    every call holds after. *)
Lemma call_all_invariant (P : State → Prop) :
  (∀ s c r s', P s → call c s = (Ok r, s') → P s') →
  ∀ cs s outs s', P s → call_all cs s = (Ok outs, s') → P s'.
Proof.
  intros Hstep cs. induction cs as [|c cs IH]; intros s outs s' HP.
  - by intros [= _ <-].
  - destruct (call_effect c s) as (r & s1 & es & Hc & _).
    rewrite (call_all_cons _ _ _ _ _ Hc).
    destruct (call_all cs s1) as [[rs|?] s2] eqn:Hcs; [|done].
    intros [= _ <-]. eapply IH; [|exact Hcs]. by eapply Hstep.
Qed.

Lemma new_synced clock uuid : synced (ChatManager.new clock uuid).
Proof.
  unfold ChatManager.new, ChatManager.constructor, mbind, M_bind.
  destruct (createRoom_run (ChatManager.empty clock uuid) (lit "general")
              (lit "General Chat")) as (s' & Hrun & _).
  rewrite Hrun. cbn. eapply createRoom_synced; [|exact Hrun].
  by intros k r.
Qed.

(** X6: whatever calls a manager has gone through since it was built, it
    is consistent, and [getRoomStream] does not throw for any room it
    holds: it returns the subject of that room, whose current value is the
    room as it is now. *)
Theorem reachable_room_streams (clock : nat → Z) (uuid : nat → jsstring)
    (cs : list Call) (outs : list Returned) (s : State) :
  call_all cs (ChatManager.new clock uuid) = (Ok outs, s) →
  consistent s
  ∧ ∀ roomId room, room_at s roomId = Some room →
      ∃ b, ChatManager.getRoomStream roomId s = (Ok b, s) ∧ value b = room.
Proof.
  intros Hcs.
  assert (consistent s ∧ synced s) as [Hs Hsync].
  { apply (call_all_invariant (λ s, consistent s ∧ synced s)) with
      (cs := cs) (s := ChatManager.new clock uuid) (outs := outs);
      [|split; [apply new_consistent | apply new_synced]|done].
    intros s0 c r s0' [? ?] Hc. split.
    - by eapply call_consistent.
    - by eapply call_synced. }
  split; [done|]. intros roomId room Hr.
  destruct (Hsync _ _ Hr) as (b & Hb & Hv). exists b. split; [|done].
  run. by rewrite Hb.
Qed.

Lemma reachable_room_streams_witness :
  ∃ b, ChatManager.getRoomStream general joined_manager = (Ok b, joined_manager)
       ∧ Room.users (value b) = [(lit "u-1", alice)].
Proof.
  destruct (reachable_room_streams sample_clock sample_uuid
              [AddUserToRoom general alice] [RBool true] joined_manager)
    as [_ H]; [vm_compute; reflexivity|].
  destruct (room_at joined_manager general) as [room|] eqn:Hr;
    [|vm_compute in Hr; discriminate].
  destruct (H general room Hr) as (b & Hb & Hv).
  exists b. split; [done|]. rewrite Hv.
  vm_compute in Hr. injection Hr as <-. reflexivity.
Defined.

Lemma call_history_prefix s c r s' R :
  consistent s → call c s = (Ok r, s') → ¬ recreates R c →
  roomHistory s R `prefix_of` roomHistory s' R.
Proof.
  intros Hs Hc Hre. destruct (decide (target c = R)) as [Ht|Ht].
  - revert Hc.
    destruct c as [id name|roomId user|roomId userId|roomId userId content];
      simpl in Ht; subst; [done| | |]; unfold call, mbind, M_bind, mret, M_ret.
    + destruct (room_at s R) as [room|] eqn:Hr.
      * destruct (addUserToRoom_run s R user room Hr) as (s1 & -> & Hc).
        intros [= _ <-]. rewrite (committed_history _ _ _ _ _ Hc).
        unfold roomHistory. rewrite Hr. by apply prefix_app_r.
      * rewrite addUserToRoom_absent by done. by intros [= _ <-].
    + destruct (member_in s R userId) as [user|] eqn:Hm.
      * destruct (removeUserFromRoom_member _ _ _ _ Hm)
          as (room & s1 & Hr & Hu & -> & Hc).
        intros [= _ <-]. rewrite (committed_history _ _ _ _ _ Hc).
        unfold roomHistory. rewrite Hr. by apply prefix_app_r.
      * rewrite removeUserFromRoom_rejected by done. by intros [= _ <-].
    + destruct (member_in s R userId) as [user|] eqn:Hm.
      * unfold member_in in Hm.
        destruct (room_at s R) as [room|] eqn:Hr; [simpl in Hm|done].
        destruct (addMessage_run s R userId content room user Hr Hm)
          as (s1 & -> & Hc).
        intros [= _ <-]. rewrite (committed_history _ _ _ _ _ Hc).
        unfold roomHistory. rewrite Hr. by apply prefix_app_r.
      * rewrite addMessage_rejected by done. by intros [= _ <-].
  - unfold roomHistory. by rewrite (call_frame _ _ _ _ _ Hs Hc Ht).
Qed.

Lemma call_all_history_prefix R cs :
  ∀ s outs s',
    consistent s → Forall (λ c, ¬ recreates R c) cs →
    call_all cs s = (Ok outs, s') →
    roomHistory s R `prefix_of` roomHistory s' R.
Proof.
  induction cs as [|c cs IH]; intros s outs s' Hs Hcs.
  - by intros [= _ <-].
  - apply Forall_cons in Hcs as [Hc0 Hcs].
    destruct (call_effect c s) as (r & s1 & es & Hc & _).
    rewrite (call_all_cons _ _ _ _ _ Hc).
    destruct (call_all cs s1) as [[rs|?] s2] eqn:Hrun; [|done].
    intros [= _ <-]. etrans.
    + by eapply call_history_prefix.
    + eapply IH; [|done|exact Hrun]. by eapply call_consistent.
Qed.

(** X7: the history of a room only grows.  On a consistent manager, along
    any sequence of calls none of which creates a room under [R], the
    history of [R] at the start is a prefix of its history at the end:
    nothing is removed, changed or reordered. *)
Theorem history_only_grows (s s' : State) (R : jsstring) (cs : list Call)
    (outs : list Returned) :
  consistent s → Forall (λ c, ¬ recreates R c) cs →
  call_all cs s = (Ok outs, s') →
  roomHistory s R `prefix_of` roomHistory s' R.
Proof. apply call_all_history_prefix. Qed.

Lemma history_only_grows_witness :
  length (roomHistory joined_manager general) = 1%nat
  ∧ length (roomHistory chatting_manager general) = 2%nat
  ∧ roomHistory joined_manager general
    `prefix_of` roomHistory chatting_manager general.
Proof.
  split_and!; [reflexivity | reflexivity |].
  apply (history_only_grows joined_manager chatting_manager general
           [AddMessage general (lit "u-1") (lit "hi")]
           [RMessage (head (drop 1 (roomHistory chatting_manager general)))]).
  - apply (call_consistent fresh_manager (AddUserToRoom general alice)
             (RBool true) joined_manager);
      [apply new_consistent | vm_compute; reflexivity].
  - repeat constructor. simpl. tauto.
  - vm_compute. reflexivity.
Defined.

(** ** Subscribers of the event streams *)

Lemma omap_stream_of_all (es : list ChatEvent.t) :
  omap (stream_of asObservable) es = VEvent <$> es.
Proof.
  induction es as [|e es IH]; [done|]. rewrite fmap_cons, <- IH. reflexivity.
Qed.

Lemma omap_stream_of_room (R : jsstring) (es : list ChatEvent.t) :
  omap (stream_of
          (rx_filter
             (λ event, bool_decide
                         (payload_roomId (ChatEvent.payload event) = R))
             asObservable)) es
  = VEvent <$> filter (λ e, payload_roomId (ChatEvent.payload e) = R) es.
Proof.
  induction es as [|e es IH]; [done|].
  rewrite filter_cons.
  destruct (decide (payload_roomId (ChatEvent.payload e) = R)) as [He|He].
  - rewrite fmap_cons, <- IH. cbn. unfold stream_of at 1, rx_filter at 1.
    cbn. by rewrite bool_decide_eq_true_2.
  - rewrite <- IH. cbn. unfold stream_of at 1, rx_filter at 1.
    cbn. by rewrite bool_decide_eq_false_2.
Qed.

(** X8: a subscriber of [getEventStream] attached before a sequence of
    calls has received, once they are done, every event published during
    the calls, each once, in the order of publication, and nothing
    published before it subscribed. *)
Theorem event_stream_delivery (s : State) (cs : list Call) :
  ∃ o i s1 outs s2 es subscriber,
    ChatManager.getEventStream s = (Ok o, s)
    ∧ ChatManager.subscribe o s = (Ok i, s1)
    ∧ call_all cs s1 = (Ok outs, s2)
    ∧ emitted s2 = emitted s ++ es
    ∧ eventStream s2 !! i = Some subscriber
    ∧ received subscriber = VEvent <$> es.
Proof.
  destruct (call_all_effect cs
              (with_eventStream
                 (λ obs, obs ++ [mkObserver (stream_of asObservable) []]) s))
    as (outs & s2 & es & Hcs & _ & Hem & Hobs & _).
  eexists asObservable, (length (eventStream s)), _, outs, s2, es, _.
  split_and!; [reflexivity | reflexivity | exact Hcs | exact Hem | |].
  - apply Hobs. simpl. by rewrite lookup_app_r, Nat.sub_diag.
  - simpl. apply omap_stream_of_all.
Qed.

(** X9: a subscriber of [getRoomEventStream R] attached before a sequence
    of calls has received exactly the events published during the calls
    whose payload names the room [R], in the order of publication. *)
Theorem room_event_stream_delivery (s : State) (R : jsstring)
    (cs : list Call) :
  ∃ o i s1 outs s2 es subscriber,
    ChatManager.getRoomEventStream R s = (Ok o, s)
    ∧ ChatManager.subscribe o s = (Ok i, s1)
    ∧ call_all cs s1 = (Ok outs, s2)
    ∧ emitted s2 = emitted s ++ es
    ∧ eventStream s2 !! i = Some subscriber
    ∧ received subscriber
      = VEvent <$> filter (λ e, payload_roomId (ChatEvent.payload e) = R) es.
Proof.
  destruct (call_all_effect cs
              (with_eventStream
                 (λ obs, obs ++ [mkObserver
                    (stream_of
                       (rx_filter
                          (λ event,
                             bool_decide
                               (payload_roomId (ChatEvent.payload event) = R))
                          asObservable)) []]) s))
    as (outs & s2 & es & Hcs & _ & Hem & Hobs & _).
  eexists _, (length (eventStream s)), _, outs, s2, es, _.
  split_and!; [reflexivity | reflexivity | exact Hcs | exact Hem | |].
  - apply Hobs. simpl. by rewrite lookup_app_r, Nat.sub_diag.
  - simpl. apply omap_stream_of_room.
Qed.

(** X10: with a negative limit [k], [getRoomMessages] returns the history
    without its first [-k] messages (nothing when the history is no longer
    than that), not its tail. *)
Theorem getRoomMessages_negative_limit (s : State) (roomId : jsstring) (k : Z) :
  k < 0 →
  ChatManager.getRoomMessages roomId (Some k) s
  = (Ok (drop (Z.to_nat (- k)) (roomHistory s roomId)), s).
Proof.
  intros Hk. unfold roomHistory. run.
  destruct (JsMap.get roomId (rooms s)) as [room|]; cbn.
  - rewrite decide_False by lia. cbn. by rewrite slice_front.
  - by rewrite drop_nil.
Qed.

Lemma getRoomMessages_negative_limit_witness :
  ChatManager.getRoomMessages general (Some (-1)) joined_manager
  = (Ok [], joined_manager).
Proof.
  rewrite (getRoomMessages_negative_limit joined_manager general (-1)) by lia.
  reflexivity.
Defined.

(** ** Events and returned values *)

Lemma call_emitted_length c s r s' :
  call c s = (Ok r, s') →
  length (emitted s')
  = (length (emitted s) + (if accepted (c, r) then 1 else 0))%nat.
Proof.
  assert (∀ roomId room' e s1, committed roomId room' e s s1 →
            length (emitted s1) = (length (emitted s) + 1)%nat) as Hloud.
  { intros roomId room' e s1 (_ & _ & _ & -> & _). by rewrite length_app. }
  destruct c as [id name|roomId user|roomId userId|roomId userId content];
    unfold call, mbind, M_bind, mret, M_ret.
  - destruct (createRoom_run s id name) as (s1 & -> & _ & _ & _ & Hem & _).
    intros [= <- <-]. simpl. rewrite Hem. lia.
  - destruct (room_at s roomId) as [room|] eqn:Hr.
    + destruct (addUserToRoom_run s roomId user room Hr) as (s1 & -> & Hc).
      intros [= <- <-]. simpl. by eapply Hloud.
    + rewrite addUserToRoom_absent by done. intros [= <- <-]. simpl. lia.
  - destruct (member_in s roomId userId) as [user|] eqn:Hm.
    + destruct (removeUserFromRoom_member _ _ _ _ Hm)
        as (room & s1 & Hr & Hu & -> & Hc).
      intros [= <- <-]. simpl. by eapply Hloud.
    + rewrite removeUserFromRoom_rejected by done. intros [= <- <-]. simpl. lia.
  - destruct (member_in s roomId userId) as [user|] eqn:Hm.
    + unfold member_in in Hm.
      destruct (room_at s roomId) as [room|] eqn:Hr; [simpl in Hm|done].
      destruct (addMessage_run s roomId userId content room user Hr Hm)
        as (s1 & -> & Hc).
      intros [= <- <-]. simpl. by eapply Hloud.
    + rewrite addMessage_rejected by done. intros [= <- <-]. simpl. lia.
Qed.

(** X11: along any sequence of calls, exactly one event is published for
    each join, leave or post that is accepted, and none for a call that is
    refused or for the creation of a room. *)
Theorem one_event_per_accepted_call (cs : list Call) :
  ∀ (s s' : State) (outs : list Returned),
    call_all cs s = (Ok outs, s') →
    length (emitted s')
    = (length (emitted s) + length (filter (λ cr, accepted cr) (zip cs outs)))%nat.
Proof.
  induction cs as [|c cs IH]; intros s s' outs.
  - intros [= <- <-]. simpl. lia.
  - destruct (call_effect c s) as (r & s1 & es & Hc & _).
    rewrite (call_all_cons _ _ _ _ _ Hc).
    destruct (call_all cs s1) as [[rs|?] s2] eqn:Hrun; [|done].
    intros [= <- <-]. rewrite (IH _ _ _ Hrun), (call_emitted_length _ _ _ _ Hc).
    change (zip (c :: cs) (r :: rs)) with ((c, r) :: zip cs rs).
    rewrite filter_cons. destruct (accepted (c, r)) eqn:Hacc.
    + rewrite decide_True by done. simpl. lia.
    + rewrite decide_False by (by intros ?). simpl. lia.
Qed.

Lemma one_event_per_accepted_call_witness :
  length
    (emitted
       (call_all
          [AddUserToRoom general alice;
           AddMessage general (lit "nobody") (lit "hi");
           AddMessage general (lit "u-1") (lit "hi")] fresh_manager).2)
  = 2%nat.
Proof.
  destruct (call_all _ fresh_manager) as [[outs|e] s'] eqn:H.
  - cbn [snd]. rewrite (one_event_per_accepted_call _ _ _ _ H).
    vm_compute in H. injection H as <- <-. reflexivity.
  - vm_compute in H. discriminate H.
Defined.

(** ** Timestamps *)

Lemma addUserToRoom_dates s roomId user room :
  room_at s roomId = Some room →
  dates (ChatManager.addUserToRoom roomId user s).2 = S (S (dates s)).
Proof.
  intros Hr. run. unfold room_at in Hr. rewrite Hr. cbn.
  by destruct (JsMap.get (Room.id room) (roomSubjects s)).
Qed.

Lemma removeUserFromRoom_dates s roomId userId room user :
  room_at s roomId = Some room →
  JsMap.get userId (Room.users room) = Some user →
  dates (ChatManager.removeUserFromRoom roomId userId s).2 = S (S (dates s)).
Proof.
  intros Hr Hu. run. unfold room_at in Hr. rewrite Hr. cbn. rewrite Hu. cbn.
  by destruct (JsMap.get (Room.id room) (roomSubjects s)).
Qed.

Lemma addMessage_dates s roomId userId content room user :
  room_at s roomId = Some room →
  JsMap.get userId (Room.users room) = Some user →
  dates (ChatManager.addMessage roomId userId content s).2 = S (S (dates s)).
Proof.
  intros Hr Hu. run. unfold room_at in Hr. rewrite Hr. cbn. rewrite Hu. cbn.
  by destruct (JsMap.get (Room.id room) (roomSubjects s)).
Qed.

Lemma createRoom_dates s id name :
  dates (ChatManager.createRoom id name s).2 = S (dates s).
Proof. reflexivity. Qed.

Lemma committed_stamped roomId room m users' e s s' :
  consistent s → stamped s → room_at s roomId = Some room →
  Message.timestamp m = clock s (dates s) →
  committed roomId (push m (set_users users' room)) e s s' →
  (dates s < dates s')%nat → stamped s'.
Proof.
  intros Hs Hst Hr Hm Hc Hd k r Hk.
  assert (clock s' = clock s) as -> by (by destruct Hc as (_&_&_&_&?&_)).
  destruct (decide (roomId = k)) as [<-|Hne].
  - rewrite (committed_room_at _ _ _ _ _ Hc) in Hk. injection Hk as <-.
    destruct (Hst _ _ Hr) as (js & Hjs & Hsorted & Hlt).
    exists (js ++ [dates s]). simpl. split_and!.
    + rewrite !fmap_app, Hjs. simpl. by rewrite Hm.
    + apply StronglySorted_app_2; [|done|repeat constructor].
      intros j1 j2 Hj1 ->%list_elem_of_singleton.
      by eapply Forall_forall in Hlt.
    + apply Forall_app. split; [|by repeat constructor].
      eapply Forall_impl; [exact Hlt|]. simpl. lia.
  - assert (room_at s' k = room_at s k) as Hframe
      by (refine (committed_other_rooms _ room _ _ _ _ _ Hs Hr _ Hc Hne);
          reflexivity).
    rewrite Hframe in Hk.
    destruct (Hst _ _ Hk) as (js & Hjs & Hsorted & Hlt).
    exists js. split_and!; [done | done |].
    eapply Forall_impl; [exact Hlt|]. simpl. lia.
Qed.

Lemma call_stamped s c r s' :
  consistent s → stamped s → call c s = (Ok r, s') → stamped s'.
Proof.
  intros Hs Hst.
  destruct c as [id name|roomId user|roomId userId|roomId userId content];
    unfold call, mbind, M_bind, mret, M_ret.
  - pose proof (createRoom_dates s id name) as Hd.
    destruct (createRoom_run s id name)
      as (s1 & Hrun & Hrooms & _ & _ & _ & Hclock & _).
    rewrite Hrun in Hd |- *. simpl in Hd. intros [= _ <-] k r0.
    unfold room_at. rewrite Hrooms, Hclock.
    destruct (decide (id = k)) as [<-|Hne].
    + rewrite get_set_eq. intros [= <-]. exists []. by repeat constructor.
    + rewrite get_set_ne by done. intros Hk.
      destruct (Hst _ _ Hk) as (js & Hjs & Hsorted & Hlt).
      exists js. split_and!; [done | done |].
      eapply Forall_impl; [exact Hlt|]. simpl. lia.
  - destruct (room_at s roomId) as [room|] eqn:Hr.
    + pose proof (addUserToRoom_dates s roomId user room Hr) as Hd.
      destruct (addUserToRoom_run s roomId user room Hr) as (s1 & Hrun & Hc).
      rewrite Hrun in Hd |- *. simpl in Hd. intros [= _ <-].
      refine (committed_stamped _ room _ _ _ _ _ Hs Hst Hr _ Hc _);
        [done | lia].
    + rewrite addUserToRoom_absent by done. by intros [= _ <-].
  - destruct (member_in s roomId userId) as [user|] eqn:Hm.
    + destruct (removeUserFromRoom_member _ _ _ _ Hm)
        as (room & s1 & Hr & Hu & Hrun & Hc).
      pose proof (removeUserFromRoom_dates s roomId userId room user Hr Hu)
        as Hd.
      rewrite Hrun in Hd |- *. simpl in Hd. intros [= _ <-].
      refine (committed_stamped _ room _ _ _ _ _ Hs Hst Hr _ Hc _);
        [done | lia].
    + rewrite removeUserFromRoom_rejected by done. by intros [= _ <-].
  - destruct (member_in s roomId userId) as [user|] eqn:Hm.
    + unfold member_in in Hm.
      destruct (room_at s roomId) as [room|] eqn:Hr; [simpl in Hm|done].
      pose proof (addMessage_dates s roomId userId content room user Hr Hm)
        as Hd.
      destruct (addMessage_run s roomId userId content room user Hr Hm)
        as (s1 & Hrun & Hc).
      rewrite Hrun in Hd |- *. simpl in Hd. intros [= _ <-].
      assert (push (textMessage s userId user content) room
              = push (textMessage s userId user content)
                  (set_users (Room.users room) room)) as Heq
        by (by destruct room).
      rewrite Heq in Hc.
      refine (committed_stamped _ room _ _ _ _ _ Hs Hst Hr _ Hc _);
        [done | lia].
    + rewrite addMessage_rejected by done. by intros [= _ <-].
Qed.

Lemma call_clock s c r s' : call c s = (Ok r, s') → clock s' = clock s.
Proof.
  destruct c as [id name|roomId user|roomId userId|roomId userId content];
    unfold call, mbind, M_bind, mret, M_ret.
  - destruct (createRoom_run s id name)
      as (s1 & -> & _ & _ & _ & _ & Hclock & _).
    by intros [= _ <-].
  - destruct (room_at s roomId) as [room|] eqn:Hr.
    + destruct (addUserToRoom_run s roomId user room Hr)
        as (s1 & -> & _ & _ & _ & _ & Hclock & _).
      by intros [= _ <-].
    + rewrite addUserToRoom_absent by done. by intros [= _ <-].
  - destruct (member_in s roomId userId) as [user|] eqn:Hm.
    + destruct (removeUserFromRoom_member _ _ _ _ Hm)
        as (room & s1 & _ & _ & -> & _ & _ & _ & _ & Hclock & _).
      by intros [= _ <-].
    + rewrite removeUserFromRoom_rejected by done. by intros [= _ <-].
  - destruct (member_in s roomId userId) as [user|] eqn:Hm.
    + unfold member_in in Hm.
      destruct (room_at s roomId) as [room|] eqn:Hr; [simpl in Hm|done].
      destruct (addMessage_run s roomId userId content room user Hr Hm)
        as (s1 & -> & _ & _ & _ & _ & Hclock & _).
      by intros [= _ <-].
    + rewrite addMessage_rejected by done. by intros [= _ <-].
Qed.

Lemma new_stamped clock uuid : stamped (ChatManager.new clock uuid).
Proof.
  unfold ChatManager.new, ChatManager.constructor, mbind, M_bind.
  destruct (createRoom_run (ChatManager.empty clock uuid) (lit "general")
              (lit "General Chat")) as (s' & Hrun & Hrooms & _).
  rewrite Hrun. cbn. intros k r. unfold room_at. rewrite Hrooms.
  destruct (decide (lit "general" = k)) as [<-|Hne].
  - rewrite get_set_eq. intros [= <-]. exists []. by repeat constructor.
  - by rewrite get_set_ne.
Qed.

Lemma clock_sorted (clock : nat → Z) (js : list nat) :
  monotone clock → StronglySorted lt js → StronglySorted Z.le (clock <$> js).
Proof.
  intros Hmono. induction 1 as [|j js Hs IH Hj]; simpl; constructor; [done|].
  apply Forall_fmap. eapply Forall_impl; [exact Hj|].
  intros j' Hlt. simpl. apply Hmono. lia.
Qed.

(** X12: when the clock never runs backwards, the history of every room
    of a manager is in chronological order, whatever calls the manager has
    gone through since it was built: the timestamps along the history never
    decrease. *)
Theorem history_chronological (ticks : nat → Z) (ids : nat → jsstring)
    (cs : list Call) (outs : list Returned) (s : State) (R : jsstring) :
  monotone ticks →
  call_all cs (ChatManager.new ticks ids) = (Ok outs, s) →
  StronglySorted Z.le (Message.timestamp <$> roomHistory s R).
Proof.
  intros Hmono Hcs.
  assert (consistent s ∧ stamped s ∧ clock s = ticks) as (_ & Hst & Hclock).
  { apply (call_all_invariant
             (λ s, consistent s ∧ stamped s ∧ clock s = ticks))
      with (cs := cs) (s := ChatManager.new ticks ids) (outs := outs);
      [|split_and!; [apply new_consistent | apply new_stamped | done]|done].
    intros s0 c r s0' (? & ? & Hcl) Hc. split_and!.
    - by eapply call_consistent.
    - by eapply call_stamped.
    - by rewrite (call_clock _ _ _ _ Hc). }
  unfold roomHistory. destruct (room_at s R) as [room|] eqn:Hr;
    [|constructor].
  destruct (Hst _ _ Hr) as (js & -> & Hsorted & _).
  rewrite Hclock. by apply clock_sorted.
Qed.

Lemma history_chronological_witness :
  StronglySorted Z.le
    (Message.timestamp
     <$> roomHistory
           (call_all [AddUserToRoom general alice;
                      AddMessage general (lit "u-1") (lit "hi")]
              fresh_manager).2 general).
Proof.
  destruct (call_all _ fresh_manager) as [[outs|e] s'] eqn:H.
  - refine (history_chronological sample_clock sample_uuid _ outs s' general
              _ H).
    intros i j Hij. unfold sample_clock. lia.
  - vm_compute in H. discriminate H.
Defined.

(** * Further properties of the stream transforms *)

(** X13: the content of a sanitized message holds no [<] and no [>]. *)
Theorem processMessage_no_angle (m : Message.t) :
  Forall (λ c, c ≠ 60%N ∧ c ≠ 62%N)
    (Message.content (MessageTransform.processMessage m)).
Proof.
  unfold MessageTransform.processMessage. simpl.
  rewrite escape_two_passes. apply trim_no_angle, html_escape_no_angle.
Qed.

Lemma html_escape_id s : no_angle s → html_escape_spec s = s.
Proof.
  induction 1 as [|x s [H1 H2] _ IH]; [done|].
  change (html_escape_spec (x :: s)) with
    ((if decide (x = 60%N) then lit "&lt;"
      else if decide (x = 62%N) then lit "&gt;" else [x]) ++ html_escape_spec s).
  by rewrite IH, !decide_False.
Qed.

(** X14: the messages the sanitizer leaves as they are are exactly those
    whose content holds no angle bracket and neither starts nor ends with
    white space; in particular text that is already escaped is not escaped
    again. *)
Theorem processMessage_fixed_points (m : Message.t) :
  MessageTransform.processMessage m = m
  ↔ no_angle (Message.content m)
    ∧ starts_clean (Message.content m) ∧ ends_clean (Message.content m).
Proof.
  split.
  - intros Hfix.
    assert (Message.content (MessageTransform.processMessage m)
            = Message.content m) as Hc by (by rewrite Hfix).
    unfold MessageTransform.processMessage in Hc. simpl in Hc.
    rewrite escape_two_passes in Hc.
    destruct (trim_split (html_escape_spec (Message.content m)))
      as (l & r & _ & _ & _ & H1 & H2).
    pose proof (trim_no_angle _ (html_escape_no_angle (Message.content m))) as H0.
    rewrite Hc in H0, H1, H2. done.
  - intros (H0 & H1 & H2). destruct m as [i u n c t ty]. simpl in *.
    unfold MessageTransform.processMessage. simpl.
    by rewrite escape_two_passes, html_escape_id, trim_clean.
Qed.

Lemma trimStart_all_white s : all_white s → trimStart s = [].
Proof. induction 1 as [|c s Hc _ IH]; [done|]. simpl. by rewrite Hc. Qed.

Lemma trim_nil_iff s : trim s = [] ↔ all_white s.
Proof.
  split.
  - intros H. destruct (trim_split s) as (l & r & Hs & Hl & Hr & _).
    rewrite H in Hs. rewrite Hs. apply Forall_app. by split.
  - intros H. unfold trim. by rewrite trimStart_all_white.
Qed.

Lemma html_escape_white s : all_white (html_escape_spec s) ↔ all_white s.
Proof.
  induction s as [|x s IH]; [done|].
  change (html_escape_spec (x :: s)) with
    ((if decide (x = 60%N) then lit "&lt;"
      else if decide (x = 62%N) then lit "&gt;" else [x]) ++ html_escape_spec s).
  unfold all_white in *. rewrite Forall_app, Forall_cons, IH.
  destruct (decide (x = 60%N)) as [->|?]; [|destruct (decide (x = 62%N)) as [->|?]].
  - split; intros [H _]; [by apply Forall_cons in H as [? _]|done].
  - split; intros [H _]; [by apply Forall_cons in H as [? _]|done].
  - rewrite Forall_singleton. done.
Qed.

(** X15: the sanitized content is empty exactly when the content consists
    of white space only (or is empty). *)
Theorem processMessage_empty (m : Message.t) :
  Message.content (MessageTransform.processMessage m) = []
  ↔ Forall (λ c, is_white c = true) (Message.content m).
Proof.
  unfold MessageTransform.processMessage. simpl.
  rewrite escape_two_passes, trim_nil_iff. apply html_escape_white.
Qed.




(** ** The activity tracker, continued *)



Lemma prune_subseteq (c : Z) (m : gmap jsstring Z) :
  foldl (UserActivityTransform.prune_entry c) m (map_to_list m) ⊆ m.
Proof.
  apply map_subseteq_spec. intros k t Hk. by apply prune_lookup in Hk as [? _].
Qed.

(** X19: [getActiveUsers] never returns more than the number of tracked
    users, and asking again at the same clock reading removes nothing more
    and returns the same count. *)
Theorem getActiveUsers_stable (now : Z) (st : UserActivityTransform.t) :
  let (count, st') := UserActivityTransform.getActiveUsers now st in
  (count ≤ size (UserActivityTransform.userActivity st))%nat
  ∧ UserActivityTransform.getActiveUsers now st' = (count, st').
Proof.
  unfold UserActivityTransform.getActiveUsers. simpl. split.
  - apply map_subseteq_size, prune_subseteq.
  - set (c := now - 5 * 60 * 1000).
    set (m := UserActivityTransform.userActivity st).
    assert (foldl (UserActivityTransform.prune_entry c)
              (foldl (UserActivityTransform.prune_entry c) m (map_to_list m))
              (map_to_list
                 (foldl (UserActivityTransform.prune_entry c) m (map_to_list m)))
            = foldl (UserActivityTransform.prune_entry c) m (map_to_list m))
      as ->; [|done].
    apply map_eq. intros k. apply option_eq. intros t.
    rewrite !prune_lookup. tauto.
Qed.

(** X20: a user whose event was written at most five minutes before
    [getActiveUsers] is called is still tracked afterwards, with the time
    of that event, and is counted. *)
Theorem recent_user_survives (t now : Z) (st : UserActivityTransform.t)
    (d : UserActivityTransform.Data) :
  now - t ≤ 5 * 60 * 1000 →
  let (count, st') :=
    UserActivityTransform.getActiveUsers now
      (UserActivityTransform._transform t st d) in
  UserActivityTransform.userActivity st'
    !! User.id (UserActivityTransform.user d) = Some t
  ∧ (1 ≤ count)%nat.
Proof.
  intros Hrecent. unfold UserActivityTransform.getActiveUsers. simpl.
  set (c := now - 5 * 60 * 1000).
  set (m := <[User.id (UserActivityTransform.user d) := t]>
              (UserActivityTransform.userActivity st)).
  assert (foldl (UserActivityTransform.prune_entry c) m (map_to_list m)
          !! User.id (UserActivityTransform.user d) = Some t) as Hk.
  { apply prune_lookup. split; [apply lookup_insert_eq | unfold c; lia]. }
  split; [done|].
  destruct (decide (size (foldl (UserActivityTransform.prune_entry c) m
                            (map_to_list m)) = 0%nat)) as [H0|]; [|lia].
  apply map_size_empty_iff in H0. rewrite H0 in Hk. by rewrite lookup_empty in Hk.
Qed.

Lemma recent_user_survives_witness :
  (1 ≤ (UserActivityTransform.getActiveUsers (10 + 5 * 60 * 1000)
          (UserActivityTransform._transform 10 UserActivityTransform.new
             (UserActivityTransform.mkData alice (lit "joined")))).1)%nat.
Proof.
  pose proof (recent_user_survives 10 (10 + 5 * 60 * 1000)
                UserActivityTransform.new
                (UserActivityTransform.mkData alice (lit "joined"))) as H.
  assert (10 + 5 * 60 * 1000 - 10 ≤ 5 * 60 * 1000) as Hle by lia.
  specialize (H Hle).
  destruct (UserActivityTransform.getActiveUsers _ _) as [count st'].
  simpl. by destruct H.
Defined.

(** * The socket handler *)

Lemma getRoomMessages_positive s roomId k :
  0 < k →
  ChatManager.getRoomMessages roomId (Some k) s
  = (Ok (last_n (Z.to_nat k) (roomHistory s roomId)), s).
Proof.
  intros Hk. unfold roomHistory. run.
  destruct (JsMap.get roomId (rooms s)) as [room|]; cbn; [|done].
  rewrite decide_False by lia. cbn. rewrite slice_tail by done.
  do 2 f_equal. unfold last_n. f_equal. lia.
Qed.

Lemma sent_foldl_emit (f : Message.t → SocketHandler.Emission) ms sock :
  foldl (λ sock m, SocketHandler.emit (f m) sock) sock ms
  = SocketHandler.mkSocket (SocketHandler.data sock)
      (SocketHandler.joined sock) (SocketHandler.sent sock ++ (f <$> ms)).
Proof.
  revert sock. induction ms as [|m ms IH]; intros sock; simpl.
  - rewrite app_nil_r. by destruct sock.
  - rewrite IH. simpl. by rewrite <- (assoc_L (++)).
Qed.

Lemma last_n_snoc {A} (n : nat) (l : list A) (x : A) :
  (0 < n)%nat → last (last_n n (l ++ [x])) = Some x.
Proof.
  intros Hn. unfold last_n. rewrite length_app. simpl.
  rewrite drop_app_le by lia. apply last_snoc.
Qed.

Lemma handleJoinRoom_run (s : State) (sock : SocketHandler.Socket)
    (roomId username : jsstring) :
  is_Some (room_at s roomId) →
  ∃ sock' s' recent,
    SocketHandler.handleJoinRoom roomId username sock s = (Ok sock', s')
    ∧ ChatManager.addUserToRoom roomId (newcomer s username) (greeted s)
      = (Ok true, s')
    ∧ SocketHandler.data sock'
      = SocketHandler.mkData (Some (User.id (newcomer s username)))
          (Some (trim username)) (Some roomId)
    ∧ roomId ∈ SocketHandler.joined sock'
    ∧ newcomer s username ∈ roomMembers s' roomId
    ∧ member_in s' roomId (User.id (newcomer s username))
      = Some (newcomer s username)
    ∧ recent = last_n 50 (roomHistory s' roomId)
    ∧ last recent = Some (joinMessage (greeted s) (newcomer s username))
    ∧ SocketHandler.sent sock'
      = SocketHandler.sent sock
        ++ [SocketHandler.ToSocket
              (SocketHandler.roomUsers (roomMembers s' roomId))]
        ++ ((λ m, SocketHandler.ToSocket (SocketHandler.message m)) <$> recent)
        ++ [SocketHandler.ToOthers roomId
              (SocketHandler.userJoined (newcomer s username))].
Proof.
  intros [room Hr].
  destruct (addUserToRoom_run (greeted s) roomId (newcomer s username) room Hr)
    as (s' & Hrun & Hc).
  pose proof (committed_room_at _ _ _ _ _ Hc) as Hr'.
  assert (roomHistory s' roomId
          = Room.messages room
            ++ [joinMessage (greeted s) (newcomer s username)]) as Hh
    by (unfold roomHistory; by rewrite Hr').
  eexists _, s', (last_n 50 (roomHistory s' roomId)).
  split_and!; [| exact Hrun | | | | | reflexivity | |].
  - unfold SocketHandler.handleJoinRoom, mbind, M_bind, mret, M_ret,
      SocketHandler.attempt, uuidv4, new_Date.
    cbv beta iota. cbn [rooms roomSubjects eventStream emitted clock dates
                         uuid uuids].
    change (mkState (rooms s) (roomSubjects s) (eventStream s) (emitted s)
              (clock s) (S (dates s)) (uuid s) (S (uuids s)))
      with (greeted s).
    change (User.mk (uuid s (uuids s)) (trim username) (clock s (dates s)))
      with (newcomer s username).
    rewrite Hrun. cbv beta iota. rewrite getRoomUsers_run. cbv beta iota.
    rewrite getRoomMessages_positive by lia. cbv beta iota.
    rewrite sent_foldl_emit. reflexivity.
  - reflexivity.
  - simpl. case_decide; [done|]. apply elem_of_app. right.
    apply list_elem_of_singleton. done.
  - unfold roomMembers. rewrite Hr'. apply values_set_elem.
  - unfold member_in. rewrite Hr'. simpl. apply get_set_eq.
  - rewrite Hh. apply last_n_snoc. lia.
  - simpl. by rewrite <- !(assoc_L (++)).
Qed.

(** X21: when the room exists, [handleJoinRoom] registers a user made of a
    fresh identifier, the trimmed name and the time of the call, and
    records the identifier, the name and the room in [socket.data].  The
    socket is then sent, in this order: the members of the room, the new
    user among them; the last fifty messages of the history at most, each
    as a [message], the last of them being the user's own join message; and
    the other sockets of the room are told [userJoined]. *)
Theorem handleJoinRoom_existing (s : State) (sock : SocketHandler.Socket)
    (roomId username : jsstring) :
  is_Some (room_at s roomId) →
  ∃ sock' s' recent,
    SocketHandler.handleJoinRoom roomId username sock s = (Ok sock', s')
    ∧ ChatManager.addUserToRoom roomId (newcomer s username) (greeted s)
      = (Ok true, s')
    ∧ SocketHandler.data sock'
      = SocketHandler.mkData (Some (User.id (newcomer s username)))
          (Some (trim username)) (Some roomId)
    ∧ roomId ∈ SocketHandler.joined sock'
    ∧ newcomer s username ∈ roomMembers s' roomId
    ∧ member_in s' roomId (User.id (newcomer s username))
      = Some (newcomer s username)
    ∧ recent = last_n 50 (roomHistory s' roomId)
    ∧ last recent = Some (joinMessage (greeted s) (newcomer s username))
    ∧ SocketHandler.sent sock'
      = SocketHandler.sent sock
        ++ [SocketHandler.ToSocket
              (SocketHandler.roomUsers (roomMembers s' roomId))]
        ++ ((λ m, SocketHandler.ToSocket (SocketHandler.message m)) <$> recent)
        ++ [SocketHandler.ToOthers roomId
              (SocketHandler.userJoined (newcomer s username))].
Proof. apply handleJoinRoom_run. Qed.

Lemma handleJoinRoom_existing_witness :
  ∃ sock' s',
    SocketHandler.handleJoinRoom general (lit " bob ") SocketHandler.connected
      fresh_manager = (Ok sock', s')
    ∧ SocketHandler.username (SocketHandler.data sock') = Some (lit "bob")
    ∧ length (SocketHandler.sent sock') = 3%nat.
Proof.
  destruct (handleJoinRoom_existing fresh_manager SocketHandler.connected
              general (lit " bob "))
    as (sock' & s' & recent & Hrun & Hadd & Hdata & _ & _ & _ & Hrec & _
        & Hsent).
  - vm_compute. eauto.
  - exists sock', s'. split_and!; [done | by rewrite Hdata |].
    rewrite Hsent, Hrec. vm_compute in Hadd. injection Hadd as <-.
    reflexivity.
Defined.

Lemma send_unauthenticated s sock roomId content :
  SocketHandler.truthy (SocketHandler.userId (SocketHandler.data sock)) = None →
  SocketHandler.handleSendMessage roomId content sock s
  = (Ok (SocketHandler.emit
           (SocketHandler.ToSocket
              (SocketHandler.error (lit "User not authenticated"))) sock), s).
Proof. intros H. unfold SocketHandler.handleSendMessage. by rewrite H. Qed.

Lemma send_blank s sock roomId content uid :
  SocketHandler.truthy (SocketHandler.userId (SocketHandler.data sock))
  = Some uid →
  trim content = [] →
  SocketHandler.handleSendMessage roomId content sock s
  = (Ok (SocketHandler.emit
           (SocketHandler.ToSocket
              (SocketHandler.error (lit "Message cannot be empty"))) sock), s).
Proof.
  intros H Ht. unfold SocketHandler.handleSendMessage.
  by rewrite H, decide_True.
Qed.

Lemma send_refused s sock roomId content uid :
  SocketHandler.truthy (SocketHandler.userId (SocketHandler.data sock))
  = Some uid →
  trim content ≠ [] →
  member_in s roomId uid = None →
  SocketHandler.handleSendMessage roomId content sock s
  = (Ok (SocketHandler.emit
           (SocketHandler.ToSocket
              (SocketHandler.error (lit "Failed to send message"))) sock), s).
Proof.
  intros H Ht Hm. unfold SocketHandler.handleSendMessage.
  rewrite H, decide_False by done.
  unfold mbind, M_bind, SocketHandler.attempt.
  by rewrite addMessage_rejected.
Qed.

Lemma send_accepted s sock roomId content uid user :
  SocketHandler.truthy (SocketHandler.userId (SocketHandler.data sock))
  = Some uid →
  trim content ≠ [] →
  member_in s roomId uid = Some user →
  ∃ s',
    SocketHandler.handleSendMessage roomId content sock s
    = (Ok (SocketHandler.emit
             (SocketHandler.ToRoom roomId
                (SocketHandler.message
                   (textMessage s uid user (trim content)))) sock), s')
    ∧ ChatManager.addMessage roomId uid (trim content) s
      = (Ok (Some (textMessage s uid user (trim content))), s')
    ∧ roomHistory s' roomId
      = roomHistory s roomId ++ [textMessage s uid user (trim content)].
Proof.
  intros H Ht Hm. unfold member_in in Hm.
  destruct (room_at s roomId) as [room|] eqn:Hr; [simpl in Hm|done].
  destruct (addMessage_run s roomId uid (trim content) room user Hr Hm)
    as (s' & Hrun & Hc).
  exists s'. split_and!; [|done|].
  - unfold SocketHandler.handleSendMessage.
    rewrite H, decide_False by done.
    unfold mbind, M_bind, SocketHandler.attempt. by rewrite Hrun.
  - rewrite (committed_history _ _ _ _ _ Hc). unfold roomHistory.
    by rewrite Hr.
Qed.

(** X22: what [handleSendMessage] answers.  A socket with no user
    identifier is told "User not authenticated"; a content of white space
    only is answered "Message cannot be empty"; a user who is not a member
    of the room is told "Failed to send message"; in these three cases the
    manager is left as it was.  Otherwise the message is stored with the
    content stripped of the white space at both ends, which is not empty,
    and sent as [message] to the whole room. *)
Theorem handleSendMessage_spec (s : State) (sock : SocketHandler.Socket)
    (roomId content : jsstring) :
  match SocketHandler.truthy (SocketHandler.userId (SocketHandler.data sock))
  with
  | None =>
      SocketHandler.handleSendMessage roomId content sock s
      = (Ok (SocketHandler.emit
               (SocketHandler.ToSocket
                  (SocketHandler.error (lit "User not authenticated"))) sock),
         s)
  | Some uid =>
      if decide (Forall (λ c, is_white c = true) content) then
        SocketHandler.handleSendMessage roomId content sock s
        = (Ok (SocketHandler.emit
                 (SocketHandler.ToSocket
                    (SocketHandler.error (lit "Message cannot be empty")))
                 sock), s)
      else
        match member_in s roomId uid with
        | None =>
            SocketHandler.handleSendMessage roomId content sock s
            = (Ok (SocketHandler.emit
                     (SocketHandler.ToSocket
                        (SocketHandler.error (lit "Failed to send message")))
                     sock), s)
        | Some user =>
            ∃ m s',
              SocketHandler.handleSendMessage roomId content sock s
              = (Ok (SocketHandler.emit
                       (SocketHandler.ToRoom roomId (SocketHandler.message m))
                       sock), s')
              ∧ Message.userId m = uid
              ∧ Message.username m = User.username user
              ∧ Message.content m = trim content
              ∧ Message.content m ≠ []
              ∧ starts_clean (Message.content m)
              ∧ ends_clean (Message.content m)
              ∧ roomHistory s' roomId = roomHistory s roomId ++ [m]
        end
  end.
Proof.
  destruct (SocketHandler.truthy _) as [uid|] eqn:Hid;
    [|by apply send_unauthenticated].
  case_decide as Hw.
  - eapply send_blank; [done|]. by apply trim_nil_iff.
  - assert (trim content ≠ []) as Ht by (by rewrite trim_nil_iff).
    destruct (member_in s roomId uid) as [user|] eqn:Hm;
      [|by eapply send_refused].
    destruct (send_accepted s sock roomId content uid user Hid Ht Hm)
      as (s' & Hrun & _ & Hh).
    destruct (trim_split content) as (l & r & _ & _ & _ & H1 & H2).
    exists (textMessage s uid user (trim content)), s'. by split_and!.
Qed.

(** X23: when there is no room under the identifier, [handleJoinRoom]
    tells the socket "Failed to join room" and the manager holds the same
    rooms as before; [socket.data] has nevertheless been given a user
    identifier and the room, and the socket has joined the socket.io room.
    A message sent to that room afterwards is answered
    "Failed to send message" (not "User not authenticated") as long as the
    identifier drawn is not the empty string. *)
Theorem handleJoinRoom_absent (s : State) (sock : SocketHandler.Socket)
    (roomId username content : jsstring) :
  room_at s roomId = None →
  uuid s (uuids s) ≠ [] →
  trim content ≠ [] →
  ∃ sock' s',
    SocketHandler.handleJoinRoom roomId username sock s = (Ok sock', s')
    ∧ rooms s' = rooms s
    ∧ SocketHandler.sent sock'
      = SocketHandler.sent sock
        ++ [SocketHandler.ToSocket
              (SocketHandler.error (lit "Failed to join room"))]
    ∧ SocketHandler.data sock'
      = SocketHandler.mkData (Some (uuid s (uuids s))) (Some (trim username))
          (Some roomId)
    ∧ roomId ∈ SocketHandler.joined sock'
    ∧ SocketHandler.handleSendMessage roomId content sock' s'
      = (Ok (SocketHandler.emit
               (SocketHandler.ToSocket
                  (SocketHandler.error (lit "Failed to send message")))
               sock'), s').
Proof.
  intros Hr Hid Ht.
  assert (SocketHandler.handleJoinRoom roomId username sock s
          = (Ok (SocketHandler.emit
                   (SocketHandler.ToSocket
                      (SocketHandler.error (lit "Failed to join room")))
                   (SocketHandler.join roomId
                      (SocketHandler.set_data
                         (SocketHandler.mkData (Some (uuid s (uuids s)))
                            (Some (trim username)) (Some roomId)) sock))),
             greeted s)) as Hrun.
  { unfold SocketHandler.handleJoinRoom, mbind, M_bind, mret, M_ret,
      SocketHandler.attempt, uuidv4, new_Date.
    cbv beta iota. cbn [rooms roomSubjects eventStream emitted clock dates
                         uuid uuids].
    change (mkState (rooms s) (roomSubjects s) (eventStream s) (emitted s)
              (clock s) (S (dates s)) (uuid s) (S (uuids s)))
      with (greeted s).
    by rewrite (addUserToRoom_absent (greeted s)). }
  eexists _, _. split; [exact Hrun|]. split_and!; try done.
  - simpl. case_decide; [done|]. apply elem_of_app. right.
    by apply list_elem_of_singleton.
  - apply (send_refused _ _ _ _ (uuid s (uuids s))); [|done|].
    + simpl. by destruct (uuid s (uuids s)).
    + unfold member_in.
      assert (room_at (greeted s) roomId = None) as -> by exact Hr. done.
Qed.

Lemma handleJoinRoom_absent_witness :
  ∃ sock' s',
    SocketHandler.handleJoinRoom (lit "nowhere") (lit "bob")
      SocketHandler.connected fresh_manager = (Ok sock', s')
    ∧ SocketHandler.roomId (SocketHandler.data sock') = Some (lit "nowhere")
    ∧ room_at s' (lit "nowhere") = None.
Proof.
  destruct (handleJoinRoom_absent fresh_manager SocketHandler.connected
              (lit "nowhere") (lit "bob") (lit "hi"))
    as (sock' & s' & Hrun & Hrooms & _ & Hdata & _).
  - reflexivity.
  - vm_compute. discriminate.
  - vm_compute. discriminate.
  - exists sock', s'. split_and!; [done | by rewrite Hdata |].
    unfold room_at. by rewrite Hrooms.
Defined.

Lemma removeUserFromRoom_returns s roomId userId :
  ∃ b s', ChatManager.removeUserFromRoom roomId userId s = (Ok b, s')
          ∧ clock s' = clock s.
Proof.
  destruct (member_in s roomId userId) as [user|] eqn:Hm.
  - destruct (removeUserFromRoom_member _ _ _ _ Hm)
      as (room & s' & _ & _ & Hrun & _ & _ & _ & _ & Hclock & _).
    by exists true, s'.
  - exists false, s. split; [|done]. by apply removeUserFromRoom_rejected.
Qed.

Lemma handleLeaveRoom_run s sock roomId uid b s' :
  SocketHandler.truthy (SocketHandler.userId (SocketHandler.data sock))
  = Some uid →
  ChatManager.removeUserFromRoom roomId uid s = (Ok b, s') →
  SocketHandler.handleLeaveRoom roomId sock s
  = (Ok (SocketHandler.mkSocket
           (SocketHandler.mkData
              (SocketHandler.userId (SocketHandler.data sock))
              (SocketHandler.username (SocketHandler.data sock)) None)
           (filter (λ r, r ≠ roomId) (SocketHandler.joined sock))
           (SocketHandler.sent sock
            ++ [SocketHandler.ToOthers roomId
                  (SocketHandler.userLeft uid
                     (SocketHandler.username (SocketHandler.data sock))
                     (clock s' (dates s')))])),
     (new_Date s').2).
Proof.
  intros Hid Hrun. unfold SocketHandler.handleLeaveRoom. rewrite Hid.
  unfold mbind, M_bind, mret, M_ret, SocketHandler.attempt. rewrite Hrun.
  reflexivity.
Qed.

Lemma handleDisconnect_run s sock uid room b s' :
  SocketHandler.truthy (SocketHandler.userId (SocketHandler.data sock))
  = Some uid →
  SocketHandler.truthy (SocketHandler.roomId (SocketHandler.data sock))
  = Some room →
  ChatManager.removeUserFromRoom room uid s = (Ok b, s') →
  SocketHandler.handleDisconnect sock s
  = (Ok (SocketHandler.emit
           (SocketHandler.ToOthers room
              (SocketHandler.userLeft uid
                 (SocketHandler.username (SocketHandler.data sock))
                 (clock s' (dates s')))) sock),
     (new_Date s').2).
Proof.
  intros Hid Hroom Hrun. unfold SocketHandler.handleDisconnect.
  rewrite Hid, Hroom.
  unfold mbind, M_bind, mret, M_ret, SocketHandler.attempt. rewrite Hrun.
  reflexivity.
Qed.

Lemma truthy_nonempty (u : jsstring) :
  u ≠ [] → SocketHandler.truthy (Some u) = Some u.
Proof. by destruct u. Qed.

(** X24: a socket that has joined an existing room can speak in it: the
    message it sends next to that room, if not blank, is stored at the end
    of the history under the identifier and the trimmed name given at the
    join, with its content trimmed, and is sent to the whole room. *)
Theorem join_then_send (s : State) (sock : SocketHandler.Socket)
    (roomId username content : jsstring) :
  is_Some (room_at s roomId) →
  uuid s (uuids s) ≠ [] →
  trim content ≠ [] →
  ∃ sock1 s1 sock2 s2 m,
    SocketHandler.handleJoinRoom roomId username sock s = (Ok sock1, s1)
    ∧ SocketHandler.handleSendMessage roomId content sock1 s1 = (Ok sock2, s2)
    ∧ SocketHandler.sent sock2
      = SocketHandler.sent sock1
        ++ [SocketHandler.ToRoom roomId (SocketHandler.message m)]
    ∧ Message.userId m = uuid s (uuids s)
    ∧ Message.username m = trim username
    ∧ Message.content m = trim content
    ∧ Message.type m = TEXT
    ∧ last (roomHistory s2 roomId) = Some m.
Proof.
  intros Hroom Hid Ht.
  destruct (handleJoinRoom_run s sock roomId username Hroom)
    as (sock1 & s1 & recent & Hjoin & _ & Hdata & _ & _ & Hm & _).
  destruct (send_accepted s1 sock1 roomId content (uuid s (uuids s))
              (newcomer s username)) as (s2 & Hsend & _ & Hh); [|done|done|].
  { rewrite Hdata. simpl. by apply truthy_nonempty. }
  eexists sock1, s1, _, s2, _. split_and!; [exact Hjoin | exact Hsend | ..];
    try done.
  rewrite Hh. apply last_snoc.
Qed.

Lemma join_then_send_witness :
  ∃ sock1 s1 sock2 s2,
    SocketHandler.handleJoinRoom general (lit "bob") SocketHandler.connected
      fresh_manager = (Ok sock1, s1)
    ∧ SocketHandler.handleSendMessage general (lit " hi ") sock1 s1
      = (Ok sock2, s2)
    ∧ length (SocketHandler.sent sock2) = 4%nat.
Proof.
  destruct (join_then_send fresh_manager SocketHandler.connected general
              (lit "bob") (lit " hi "))
    as (sock1 & s1 & sock2 & s2 & m & Hjoin & Hsend & Hsent & _).
  - vm_compute. eauto.
  - vm_compute. discriminate.
  - vm_compute. discriminate.
  - exists sock1, s1, sock2, s2. split_and!; [done | done |].
    rewrite Hsent, length_app. vm_compute in Hjoin. injection Hjoin as <- _.
    reflexivity.
Defined.

(** X25: when a socket that has joined an existing room disconnects, its
    user is removed from the room, the history of the room has gained the
    join message and the leave message of that user, and the other sockets
    of the room are told [userLeft] with the identifier and the name given
    at the join. *)
Theorem join_then_disconnect (s : State) (sock : SocketHandler.Socket)
    (roomId username : jsstring) :
  is_Some (room_at s roomId) →
  uuid s (uuids s) ≠ [] →
  roomId ≠ [] →
  ∃ sock1 s1 sock2 s2 joined left at_,
    SocketHandler.handleJoinRoom roomId username sock s = (Ok sock1, s1)
    ∧ SocketHandler.handleDisconnect sock1 s1 = (Ok sock2, s2)
    ∧ member_in s2 roomId (uuid s (uuids s)) = None
    ∧ roomHistory s2 roomId = roomHistory s roomId ++ [joined; left]
    ∧ Message.content joined = trim username ++ lit " joined the room"
    ∧ Message.content left = trim username ++ lit " left the room"
    ∧ SocketHandler.sent sock2
      = SocketHandler.sent sock1
        ++ [SocketHandler.ToOthers roomId
              (SocketHandler.userLeft (uuid s (uuids s))
                 (Some (trim username)) at_)].
Proof.
  intros [room Hr] Hid Hroom.
  destruct (handleJoinRoom_run s sock roomId username (ex_intro _ room Hr))
    as (sock1 & s1 & recent & Hjoin & Hadd & Hdata & _ & _ & Hm & _).
  destruct (addUserToRoom_run (greeted s) roomId (newcomer s username) room Hr)
    as (s1' & Hadd' & Hc1).
  rewrite Hadd in Hadd'. injection Hadd' as <-.
  destruct (removeUserFromRoom_member _ _ _ _ Hm)
    as (room1 & s2 & Hr1 & Hu1 & Hrem & Hc2).
  rewrite (committed_room_at _ _ _ _ _ Hc1) in Hr1. injection Hr1 as <-.
  pose proof (committed_room_at _ _ _ _ _ Hc2) as Hr2.
  eexists sock1, s1, _, (new_Date s2).2, _, _, _.
  split_and!; [exact Hjoin | | | | | |].
  - apply (handleDisconnect_run s1 sock1 (uuid s (uuids s)) roomId true s2);
      [| |exact Hrem]; rewrite Hdata; simpl; by apply truthy_nonempty.
  - unfold member_in.
    assert (room_at (new_Date s2).2 roomId = Some
              (push (leaveMessage s1 (newcomer s username))
                 (set_users
                    (JsMap.delete (User.id (newcomer s username))
                       (Room.users
                          (push (joinMessage (greeted s) (newcomer s username))
                             (set_users
                                (JsMap.set (User.id (newcomer s username))
                                   (newcomer s username) (Room.users room))
                                room))))
                    (push (joinMessage (greeted s) (newcomer s username))
                       (set_users
                          (JsMap.set (User.id (newcomer s username))
                             (newcomer s username) (Room.users room)) room)))))
      as -> by exact Hr2.
    simpl. apply get_delete_eq.
  - unfold roomHistory at 1.
    assert (room_at (new_Date s2).2 roomId = room_at s2 roomId) as ->
      by reflexivity.
    rewrite Hr2. unfold roomHistory. rewrite Hr. simpl.
    by rewrite <- (assoc_L (++)).
  - reflexivity.
  - reflexivity.
  - simpl. rewrite Hdata. reflexivity.
Qed.

Lemma join_then_disconnect_witness :
  ∃ sock1 s1 sock2 s2,
    SocketHandler.handleJoinRoom general (lit "bob") SocketHandler.connected
      fresh_manager = (Ok sock1, s1)
    ∧ SocketHandler.handleDisconnect sock1 s1 = (Ok sock2, s2)
    ∧ roomMembers s2 general = []
    ∧ length (roomHistory s2 general) = 2%nat.
Proof.
  destruct (join_then_disconnect fresh_manager SocketHandler.connected general
              (lit "bob"))
    as (sock1 & s1 & sock2 & s2 & j & l & t & Hjoin & Hdisc & _ & Hh & _).
  - vm_compute. eauto.
  - vm_compute. discriminate.
  - vm_compute. discriminate.
  - exists sock1, s1, sock2, s2. split_and!; [done | done | |].
    + vm_compute in Hjoin. injection Hjoin as <- <-.
      vm_compute in Hdisc. injection Hdisc as _ <-. reflexivity.
    + by rewrite Hh.
Defined.

(** X26: [handleLeaveRoom] by a socket that has a user identifier always
    tells the other sockets of the named room [userLeft], makes the socket
    leave the socket.io room and clears the room recorded in
    [socket.data], whether or not the user was a member of that room; a
    disconnection after it changes nothing and emits nothing.  By a socket
    without a user identifier it does nothing at all. *)
Theorem leave_then_disconnect (s : State) (sock : SocketHandler.Socket)
    (roomId : jsstring) :
  match SocketHandler.truthy (SocketHandler.userId (SocketHandler.data sock))
  with
  | None => SocketHandler.handleLeaveRoom roomId sock s = (Ok sock, s)
  | Some uid =>
      ∃ sock1 s1 at_,
        SocketHandler.handleLeaveRoom roomId sock s = (Ok sock1, s1)
        ∧ SocketHandler.roomId (SocketHandler.data sock1) = None
        ∧ (roomId ∉ SocketHandler.joined sock1)
        ∧ SocketHandler.sent sock1
          = SocketHandler.sent sock
            ++ [SocketHandler.ToOthers roomId
                  (SocketHandler.userLeft uid
                     (SocketHandler.username (SocketHandler.data sock)) at_)]
        ∧ SocketHandler.handleDisconnect sock1 s1 = (Ok sock1, s1)
  end.
Proof.
  destruct (SocketHandler.truthy _) as [uid|] eqn:Hid.
  - destruct (removeUserFromRoom_returns s roomId uid) as (b & s' & Hrun & _).
    eexists _, _, _. split; [by eapply handleLeaveRoom_run|].
    split_and!; try done.
    + simpl. rewrite list_elem_of_filter. by intros [? _].
    + unfold SocketHandler.handleDisconnect. simpl.
      by destruct (SocketHandler.truthy _).
  - unfold SocketHandler.handleLeaveRoom. by rewrite Hid.
Qed.

(** X27: leaving another room than the one joined does not end the
    membership.  On a consistent manager, a socket that joins the room [R],
    then asks to leave a different room, then disconnects, is still a
    member of [R] afterwards: the disconnection changes nothing. *)
Theorem leave_other_room_keeps_membership (s : State)
    (sock : SocketHandler.Socket) (R R' username : jsstring) :
  consistent s → is_Some (room_at s R) → uuid s (uuids s) ≠ [] → R' ≠ R →
  ∃ sock1 s1 sock2 s2,
    SocketHandler.handleJoinRoom R username sock s = (Ok sock1, s1)
    ∧ SocketHandler.handleLeaveRoom R' sock1 s1 = (Ok sock2, s2)
    ∧ SocketHandler.handleDisconnect sock2 s2 = (Ok sock2, s2)
    ∧ member_in s2 R (uuid s (uuids s)) = Some (newcomer s username).
Proof.
  intros Hs [room Hr] Hid Hne.
  destruct (handleJoinRoom_run s sock R username (ex_intro _ room Hr))
    as (sock1 & s1 & recent & Hjoin & Hadd & Hdata & _ & _ & Hm & _).
  destruct (addUserToRoom_run (greeted s) R (newcomer s username) room Hr)
    as (s1' & Hadd' & Hc1).
  rewrite Hadd in Hadd'. injection Hadd' as <-.
  assert (consistent s1) as Hs1
    by (refine (committed_consistent _ room _ _ (greeted s) _ Hs Hr _ Hc1);
        reflexivity).
  destruct (removeUserFromRoom_returns s1 R' (uuid s (uuids s)))
    as (b & s2 & Hrem & _).
  assert (room_at s2 R = room_at s1 R) as Hframe.
  { apply (call_frame s1 s2 (RemoveUserFromRoom R' (uuid s (uuids s)))
             (RBool b)); [done | | done].
    unfold call, mbind, M_bind, mret, M_ret. by rewrite Hrem. }
  eexists sock1, s1, _, _. split_and!; [exact Hjoin | | |].
  - apply (handleLeaveRoom_run s1 sock1 R' (uuid s (uuids s)) b s2);
      [|exact Hrem]. rewrite Hdata. simpl. by apply truthy_nonempty.
  - unfold SocketHandler.handleDisconnect. simpl.
    by destruct (SocketHandler.truthy _).
  - unfold member_in in *.
    assert (room_at (new_Date s2).2 R = room_at s2 R) as -> by reflexivity.
    by rewrite Hframe.
Qed.

Lemma leave_other_room_keeps_membership_witness :
  ∃ sock1 s1 sock2 s2,
    SocketHandler.handleJoinRoom general (lit "bob") SocketHandler.connected
      fresh_manager = (Ok sock1, s1)
    ∧ SocketHandler.handleLeaveRoom (lit "lobby") sock1 s1 = (Ok sock2, s2)
    ∧ SocketHandler.handleDisconnect sock2 s2 = (Ok sock2, s2)
    ∧ length (roomMembers s2 general) = 1%nat.
Proof.
  destruct (leave_other_room_keeps_membership fresh_manager
              SocketHandler.connected general (lit "lobby") (lit "bob"))
    as (sock1 & s1 & sock2 & s2 & Hjoin & Hleave & Hdisc & Hm).
  - apply new_consistent.
  - vm_compute. eauto.
  - vm_compute. discriminate.
  - vm_compute. discriminate.
  - exists sock1, s1, sock2, s2. split_and!; [done | done | done |].
    vm_compute in Hjoin. injection Hjoin as <- <-.
    vm_compute in Hleave. injection Hleave as _ <-. reflexivity.
Defined.

(** * The route that creates rooms *)

(** X28: [POST /api/rooms] never touches a room that exists.  With [id]
    or [name] missing or empty it answers 400, and with an [id] in use it
    answers 409, the manager being left as it was in both cases; otherwise
    it answers 201 with a user count of 0 and registers an empty room under
    [id].  In every case each room registered before is still registered,
    unchanged, afterwards. *)
Theorem postRooms_spec (s : State) (id name : option jsstring) :
  ∃ response s',
    StreamChatServer.postRooms id name s = (Ok response, s')
    ∧ (∀ k r, room_at s k = Some r → room_at s' k = Some r)
    ∧ match SocketHandler.truthy id, SocketHandler.truthy name with
      | Some i, Some n =>
          match room_at s i with
          | Some _ =>
              response
              = StreamChatServer.mkResponse 409
                  (StreamChatServer.ErrorBody (lit "Room already exists"))
              ∧ s' = s
          | None =>
              ∃ createdAt,
                response
                = StreamChatServer.mkResponse 201
                    (StreamChatServer.RoomBody i n 0 createdAt)
                ∧ room_at s' i = Some (Room.mk i n [] [] createdAt)
          end
      | _, _ =>
          response
          = StreamChatServer.mkResponse 400
              (StreamChatServer.ErrorBody
                 (lit "Room ID and name are required"))
          ∧ s' = s
      end.
Proof.
  unfold StreamChatServer.postRooms.
  destruct (SocketHandler.truthy id) as [i|];
    [destruct (SocketHandler.truthy name) as [n|]|]; [|by eexists _, s..].
  unfold mbind, M_bind, mret, M_ret, ChatManager.getRoom, gets.
  destruct (room_at s i) as [old|] eqn:Hold; unfold room_at in Hold;
    rewrite Hold; [by eexists _, s|].
  destruct (createRoom_run s i n) as (s' & -> & Hrooms & _).
  eexists _, s'. split; [reflexivity|]. split.
  - intros k r Hk. unfold room_at in *. rewrite Hrooms.
    rewrite get_set_ne; [done|]. intros <-. congruence.
  - eexists. split; [reflexivity|]. unfold room_at. rewrite Hrooms.
    apply get_set_eq.
Qed.
